(** * pyzdc: retrieval and column normalisation of SINAN notification data

    A shallow embedding of the two modules of the package,

    - [dq_sus/get_info/get_info.py]  ([get_years], [get_data_from_table]),
    - [src/transform/transform_columns.py]  ([load_json], [rename_db_columns]),

    followed by the properties established for them.  Python values are
    modelled directly: [str] as [string], [int] as [Z], a [dict] whose
    iteration order matters as an association list in insertion order,
    exceptions as an explicit [result], and the effects of a function
    (logging calls, the logging manager, the DuckDB connection) as a state
    threaded through it. *)

From Stdlib Require Import String Ascii List ZArith Bool Lia.
From Stdlib Require Import Sorting.Sorted Sorting.Permutation.
From Stdlib Require Import DecimalString.
Import ListNotations.

Local Open Scope list_scope.
Local Open Scope string_scope.

(* ================================================================== *)
(** * Part I.  The embedding                                           *)
(* ================================================================== *)

(** ** Python runtime: exceptions, results, dictionaries, logging levels *)

Module Py.

(** The exception classes the two modules raise, catch or let through.
    [Error cls msg] stands for any other subclass of [Exception]
    (an [OSError], a DuckDB error, a [TypeError], ...). *)
Inductive exn : Type :=
| ValueError (msg : string)
| FileNotFoundError (msg : string)
| JSONDecodeError (msg : string)
| UnboundLocalError (msg : string)
| Error (cls msg : string).

(** [str(e)] *)
Definition str_exn (e : exn) : string :=
  match e with
  | ValueError m | FileNotFoundError m | JSONDecodeError m
  | UnboundLocalError m | Error _ m => m
  end.

(** A call either returns a value or raises. *)
Inductive result (A : Type) : Type :=
| Return (a : A)
| Raise (e : exn).
Arguments Return {A} a.
Arguments Raise {A} e.

(** A [dict] with [str] keys, in insertion order. *)
Definition dict (V : Type) : Type := list (string * V).

(** [k in d] *)
Definition dict_contains {V} (k : string) (d : dict V) : bool :=
  existsb (fun kv => String.eqb k (fst kv)) d.

(** [d[k] = v]: an existing key keeps its position, a new one goes last. *)
Fixpoint dict_set {V} (k : string) (v : V) (d : dict V) : dict V :=
  match d with
  | [] => [(k, v)]
  | (k', v') :: d' =>
      if String.eqb k k' then (k', v) :: d' else (k', v') :: dict_set k v d'
  end.

(** [d[k]], with a default standing for the [KeyError] case. *)
Fixpoint dict_get {V} (k : string) (d : dict V) (dflt : V) : V :=
  match d with
  | [] => dflt
  | (k', v) :: d' => if String.eqb k k' then v else dict_get k d' dflt
  end.

(** [d.values()] *)
Definition dict_values {V} (d : dict V) : list V := map snd d.

(** [x in xs] for a view or list of strings *)
Definition str_in (x : string) (xs : list string) : bool :=
  existsb (String.eqb x) xs.

(** Iterating over a [str] yields its characters as strings of length one. *)
Definition chars (s : string) : list string :=
  map (fun c => String c EmptyString) (list_ascii_of_string s).

(** [sep.join(xs)] *)
Definition join (sep : string) (xs : list string) : string :=
  String.concat sep xs.

(** [str(n)] for an [int] *)
Definition str_int (n : Z) : string := NilZero.string_of_int (Z.to_int n).

(** The numeric logging levels of the [logging] module. *)
Definition NOTSET : Z := 0.
Definition INFO : Z := 20.
Definition WARNING : Z := 30.
Definition ERROR : Z := 40.
Definition CRITICAL : Z := 50.

End Py.
Import Py.

(** ** [dq_sus/get_info/get_info.py] *)

Module GetInfo.

(** *** [get_years] *)

Definition valid_diseases : dict string :=
  [("DENG", "dengue"); ("ZIKA", "zika"); ("CHIK", "chikungunya")].

Definition error_message : string :=
  "Error: Only DENG, ZIKA, and CHIK are allowed.".

(** [any(disease_code not in valid_diseases for disease_code in disease)]:
    the generator runs over the characters of [disease]. *)
Definition any_invalid (disease : string) : bool :=
  existsb (fun disease_code => negb (dict_contains disease_code valid_diseases))
          (chars disease).

(** [\d] on an ASCII character. *)
Definition is_digit (c : ascii) : bool :=
  let n := nat_of_ascii c in (48 <=? n)%nat && (n <=? 57)%nat.

Definition digit_value (c : ascii) : Z := Z.of_nat (nat_of_ascii c) - 48.

(** The pattern [BR(\d{2})] tried at the start of [s]; the group on success. *)
Definition match_BR_here (s : string) : option (ascii * ascii) :=
  match s with
  | String b (String r (String d1 (String d2 _))) =>
      if Ascii.eqb b "B" && Ascii.eqb r "R" && is_digit d1 && is_digit d2
      then Some (d1, d2) else None
  | _ => None
  end.

(** [re.search(r"BR(\d{2})", file)]: the leftmost position where the
    pattern matches, [None] when there is none. *)
Fixpoint re_search_BR (file : string) : option (ascii * ascii) :=
  match match_BR_here file with
  | Some g => Some g
  | None =>
      match file with
      | EmptyString => None
      | String _ rest => re_search_BR rest
      end
  end.

(** [int(match.group(1))] *)
Definition int_group (g : ascii * ascii) : Z :=
  10 * digit_value (fst g) + digit_value (snd g).

(** One round of the generator of lines 36-38: the year a file
    contributes, if any. *)
Definition year_of_file (file : string) : option Z :=
  match re_search_BR file with
  | Some g => Some (int_group g + 2000)%Z
  | None => None
  end.

Fixpoint years_of_files (files : list string) : list Z :=
  match files with
  | [] => []
  | file :: rest =>
      match year_of_file file with
      | Some y => y :: years_of_files rest
      | None => years_of_files rest
      end
  end.

(** [sorted] on integers (the result does not depend on the algorithm). *)
Fixpoint insert_sorted (x : Z) (l : list Z) : list Z :=
  match l with
  | [] => [x]
  | y :: l' => if (x <=? y)%Z then x :: l else y :: insert_sorted x l'
  end.

Definition sorted (l : list Z) : list Z := fold_right insert_sorted [] l.

Section GetYears.

(** The loaded SINAN index, [SINAN().load()] of line 28, seen through
    its [get_files(dis_code=...)] query. *)
Variable get_files : list string -> list string.

(** Lines 35-39. *)
Definition years (disease : string) : list Z :=
  sorted (years_of_files (get_files [disease])).

(** Lines 41-48. *)
Definition years_message (disease : string) (ys : list Z) : string :=
  let available_diseases :=
    join ", " (map (fun disease_code => dict_get disease_code valid_diseases "")
                   (chars disease)) in
  let available_years := join ", " (map str_int ys) in
  "The available data for " ++ available_diseases
    ++ " is from the years: " ++ available_years ++ ".".

Definition get_years (disease : string) : string :=
  if any_invalid disease then error_message
  else years_message disease (years disease).

End GetYears.

(** *** Terms of the properties of [get_years] *)

(** The characters of the three valid codes. *)
Definition code_characters : list ascii :=
  flat_map (fun kv => list_ascii_of_string (fst kv)) valid_diseases.

(** The character that writes the digit [n], for [n] below ten. *)
Definition decimal_digit (n : nat) : ascii :=
  nth n (list_ascii_of_string "0123456789") "0"%char.

(** [file] contains "BR" followed by the two digits [d1 d2]. *)
Definition contains_BR (file : string) (d1 d2 : ascii) : Prop :=
  exists pre post,
    file = pre ++ String "B" (String "R" (String d1 (String d2 post)))
    /\ is_digit d1 = true /\ is_digit d2 = true.

(** *** [get_data_from_table] *)

Section GetDataFromTable.

(** The values a cell holds when it is not null; [None] is a null cell
    ([NaN], [None], [NaT]). *)
Context {value : Type}.

(** A [pandas.DataFrame], row by row: the column labels, and for every
    row its index label and one cell per column. *)
Record DataFrame : Type := {
  columns : list string;
  rows : list (Z * list (option value))
}.

(** [pd.DataFrame()] *)
Definition empty_frame : DataFrame := {| columns := []; rows := [] |}.

(** [data.shape[1]] *)
Definition n_columns (data : DataFrame) : nat := length (columns data).

(** [data.empty]: an axis of length 0. *)
Definition is_empty (data : DataFrame) : bool :=
  (n_columns data =? 0)%nat || (length (rows data) =? 0)%nat.

Definition notna (c : option value) : bool :=
  match c with Some _ => true | None => false end.

(** The cell of a row in column [j]. *)
Definition cell (r : Z * list (option value)) (j : nat) : option value :=
  nth j (snd r) None.

(** Boolean indexing: the entries of [l] whose mask is [True]. *)
Fixpoint select {A} (mask : list bool) (l : list A) : list A :=
  match mask, l with
  | b :: mask', x :: l' => if b then x :: select mask' l' else select mask' l'
  | _, _ => []
  end.

(** [notna(data).any(axis=0)]: for each column, whether some row has a
    value there. *)
Definition column_has_value (data : DataFrame) (j : nat) : bool :=
  existsb (fun r => notna (cell r j)) (rows data).

Definition columns_mask (data : DataFrame) : list bool :=
  map (column_has_value data) (seq 0 (n_columns data)).

(** [data.dropna(axis=1, how="all")]: keeps the columns with a value. *)
Definition dropna_columns_all (data : DataFrame) : DataFrame :=
  let mask := columns_mask data in
  {| columns := select mask (columns data);
     rows := map (fun r => (fst r, select mask (snd r))) (rows data) |}.

(** [notna(data).all(axis=1)] for one row. *)
Definition row_complete (r : Z * list (option value)) : bool :=
  forallb notna (snd r).

(** [data.dropna()]: [axis=0, how="any"], keeps the rows without a null. *)
Definition dropna (data : DataFrame) : DataFrame :=
  {| columns := columns data; rows := filter row_complete (rows data) |}.

(** The process state the function acts on: the logging manager's
    [disable] level, the records the [logging] calls of this function
    emit, and the state of its collaborators (files, database). *)
Context {store : Type}.

Record process : Type := {
  manager_disable : Z;
  emitted : list (Z * string);
  outside : store
}.

Definition M (A : Type) : Type := process -> result A * process.

Definition ret {A} (a : A) : M A := fun p => (Return a, p).

Definition bind {A B} (m : M A) (k : A -> M B) : M B :=
  fun p =>
    match m p with
    | (Return a, p') => k a p'
    | (Raise e, p') => (Raise e, p')
    end.

(** [try: body finally: final] *)
Definition try_finally {A} (body : M A) (final : M unit) : M A :=
  fun p =>
    match body p with
    | (r, p') =>
        match final p' with
        | (Return _, p'') => (r, p'')
        | (Raise e, p'') => (Raise e, p'')
        end
    end.

(** [logging.disable(level)] *)
Definition logging_disable (level : Z) : M unit :=
  fun p => (Return tt, {| manager_disable := level;
                          emitted := emitted p;
                          outside := outside p |}).

(** [logging.warning(msg)]: dropped when [manager.disable >= WARNING]. *)
Definition logging_warning (msg : string) : M unit :=
  fun p =>
    if (WARNING <=? manager_disable p)%Z then (Return tt, p)
    else (Return tt, {| manager_disable := manager_disable p;
                        emitted := emitted p ++ [(WARNING, msg)];
                        outside := outside p |}).

(** The classes of [dq_sus.extract], [dq_sus.transform] and
    [dq_sus.load], whose code is not part of the two modules embedded
    here: each call is an arbitrary action on the process. *)
Context {files : Type}.

Record collaborators : Type := {
  construct : M unit;  (* lines 79-82: the four constructors *)
  extract_parquet : string -> list Z -> M files;
  insert_parquet_to_duck : files -> M unit;
  rename_db_columns : M unit;
  transform_db : M unit;
  load_data : string -> option Z -> M DataFrame
}.

Variable lib : collaborators.

(** Lines 79-88. *)
Definition load_table (table_name : string) (years : list Z)
    (disease : string) (limit : option Z) : M DataFrame :=
  bind (construct lib) (fun _ =>
  bind (extract_parquet lib disease years) (fun fs =>
  bind (insert_parquet_to_duck lib fs) (fun _ =>
  bind (rename_db_columns lib) (fun _ =>
  bind (transform_db lib) (fun _ =>
  load_data lib table_name limit))))).

(** Lines 90-102 and the [return data] they fall through to. *)
Definition clean (data : DataFrame) : M DataFrame :=
  let data := dropna_columns_all data in
  if is_empty data || (n_columns data =? 0)%nat then
    bind (logging_warning "No data available: All columns are empty or null.")
         (fun _ => ret empty_frame)
  else
    let data := dropna data in
    if is_empty data then
      bind (logging_warning
              "No data available: All rows are empty or null after filtering.")
           (fun _ => ret empty_frame)
    else ret data.

Definition get_data_from_table (table_name : string) (years : list Z)
    (disease : string) (limit : option Z) (verbose : bool) : M DataFrame :=
  bind (if negb verbose then logging_disable CRITICAL else ret tt) (fun _ =>
  try_finally
    (bind (load_table table_name years disease limit) clean)
    (if negb verbose then logging_disable NOTSET else ret tt)).

(** *** Terms of the properties of [get_data_from_table] *)

(** The process as the [try] block finds it. *)
Definition on_entry (verbose : bool) (p : process) : process :=
  if verbose then p else snd (logging_disable CRITICAL p).

(** The process as the [finally] clause leaves it. *)
Definition on_exit (verbose : bool) (p : process) : process :=
  if verbose then p else snd (logging_disable NOTSET p).

(** [m] leaves the manager's level as it is. *)
Definition keeps_level {A} (m : M A) : Prop :=
  forall p, manager_disable (snd (m p)) = manager_disable p.

(** No collaborator calls [logging.disable]. *)
Definition collaborators_keep_level : Prop :=
  keeps_level (construct lib)
  /\ (forall d ys, keeps_level (extract_parquet lib d ys))
  /\ (forall fs, keeps_level (insert_parquet_to_duck lib fs))
  /\ keeps_level (rename_db_columns lib)
  /\ keeps_level (transform_db lib)
  /\ (forall t l, keeps_level (load_data lib t l)).

(** What [clean] returns, without the warnings. *)
Definition cleaned (data : DataFrame) : DataFrame :=
  let d1 := dropna_columns_all data in
  if is_empty d1 || (n_columns d1 =? 0)%nat then empty_frame
  else let d2 := dropna d1 in
       if is_empty d2 then empty_frame else d2.


(** *** The accessors (lines 110-299) *)

Definition get_notifications (years : list Z) (disease : string)
    (limit : option Z) (verbose : bool) : M DataFrame :=
  get_data_from_table "notifications_info" years disease limit verbose.

Definition get_personal_data (years : list Z) (disease : string)
    (limit : option Z) (verbose : bool) : M DataFrame :=
  get_data_from_table "personal_data" years disease limit verbose.

Definition get_clinical_signs (years : list Z) (disease : string)
    (limit : option Z) (verbose : bool) : M DataFrame :=
  get_data_from_table "clinical_signs" years disease limit verbose.

Definition get_patient_diseases (years : list Z) (disease : string)
    (limit : option Z) (verbose : bool) : M DataFrame :=
  get_data_from_table "patient_diseases" years disease limit verbose.

Definition get_exams (years : list Z) (disease : string)
    (limit : option Z) (verbose : bool) : M DataFrame :=
  get_data_from_table "exams" years disease limit verbose.

Definition get_hospital_info (years : list Z) (disease : string)
    (limit : option Z) (verbose : bool) : M DataFrame :=
  get_data_from_table "hospital_info" years disease limit verbose.

Definition get_alarm_severities (years : list Z) (disease : string)
    (limit : option Z) (verbose : bool) : M DataFrame :=
  get_data_from_table "alarms_severities" years disease limit verbose.

Definition get_sinan_info (years : list Z) (disease : string)
    (limit : option Z) (verbose : bool) : M DataFrame :=
  get_data_from_table "sinan_internal_info" years disease limit verbose.

(** The eight accessors of the module. *)
Definition accessors
    : list (list Z -> string -> option Z -> bool -> M DataFrame) :=
  [get_notifications; get_personal_data; get_clinical_signs;
   get_patient_diseases; get_exams; get_hospital_info;
   get_alarm_severities; get_sinan_info].

(** *** Terms of further properties of the cleaning *)

(** Every row has one cell per column. *)
Definition well_formed (data : DataFrame) : Prop :=
  Forall (fun r => length (snd r) = n_columns data) (rows data).

(** No cell of the table is null. *)
Definition no_null (data : DataFrame) : Prop :=
  Forall (fun r => row_complete r = true) (rows data).

(** The records lines 93 and 99-101 ask the [logging] module to emit for
    a loaded table. *)
Definition cleaning_warnings (data : DataFrame) : list (Z * string) :=
  let d1 := dropna_columns_all data in
  if is_empty d1 || (n_columns d1 =? 0)%nat then
    [(WARNING, "No data available: All columns are empty or null.")]
  else if is_empty (dropna d1) then
    [(WARNING, "No data available: All rows are empty or null after filtering.")]
  else [].

End GetDataFromTable.

Arguments DataFrame : clear implicits.
Arguments process : clear implicits.
Arguments M : clear implicits.
Arguments collaborators : clear implicits.

End GetInfo.

(** ** [src/transform/transform_columns.py] *)

Module TransformColumns.

(** The SQL the module sends to DuckDB:
    [DESCRIBE {table_name}] and
    [ALTER TABLE {table_name} RENAME COLUMN "{old}" TO "{new}"]. *)
Inductive stmt : Type :=
| DESCRIBE (table_name : string)
| ALTER_RENAME (table_name old new : string).

(** [s] between double quotes. *)
Definition quoted (s : string) : string :=
  String (ascii_of_nat 34) (s ++ String (ascii_of_nat 34) EmptyString).

Definition sql (s : stmt) : string :=
  match s with
  | DESCRIBE t => "DESCRIBE " ++ t
  | ALTER_RENAME t old new =>
      "ALTER TABLE " ++ t ++ " RENAME COLUMN " ++ quoted old
        ++ " TO " ++ quoted new
  end.

(** What the function does to the outside, newest event first. *)
Inductive event : Type :=
| EOpen (path : string)              (* open(json_path, "r") *)
| ELog (level : Z) (msg : string)    (* logging.info / warning / error *)
| EConnect (path : string)           (* duckdb.connect *)
| EBegin
| EExecute (s : stmt)
| ECommit
| ERollback
| EClose.

(** The statements among some events, newest first. *)
Fixpoint statements (evs : list event) : list stmt :=
  match evs with
  | [] => []
  | EExecute s :: rest => s :: statements rest
  | _ :: rest => statements rest
  end.

(** The events of the code between [conn.begin()] and [conn.commit()]. *)
Definition is_step (ev : event) : Prop :=
  match ev with
  | EExecute _ | ELog _ _ => True
  | _ => False
  end.

(** What opening and decoding a mapping file comes to. *)
Inductive file_outcome : Type :=
| OpenFails (e : exn)      (* [open] raises *)
| DecodeFails (e : exn)    (* [json.load] raises *)
| NotADict (e : exn)       (* [dict(columns_mapping)] raises *)
| Mapping (m : dict string).

(** The installation and its files: read, never written, by this module. *)
Record host : Type := {
  json_dir : string;
  path_exists : string -> bool;             (* Path.exists *)
  read_mapping : string -> file_outcome;
  connect_failure : option exn              (* duckdb.connect raising *)
}.

Section Engine.

(** The database engine: a catalog (tables and their columns), and the
    effect of one statement on it, with the first field of every row
    it returns.  [unidecode.unidecode] is the transliteration. *)
Context {catalog : Type}.
Variable run_stmt : stmt -> catalog -> result (list string) * catalog.
Variable unidecode : string -> string.
Variable h : host.

(** The database file ([stored]), the open transaction's working copy
    ([session]) and the events so far. *)
Record world : Type := {
  stored : catalog;
  session : option catalog;
  events : list event
}.

Definition M (A : Type) : Type := world -> result A * world.

Definition ret {A} (a : A) : M A := fun w => (Return a, w).

Definition raise {A} (e : exn) : M A := fun w => (Raise e, w).

Definition bind {A B} (m : M A) (k : A -> M B) : M B :=
  fun w =>
    match m w with
    | (Return a, w') => k a w'
    | (Raise e, w') => (Raise e, w')
    end.

Definition emit (ev : event) (w : world) : world :=
  {| stored := stored w; session := session w; events := ev :: events w |}.

Definition logging (level : Z) (msg : string) : M unit :=
  fun w => (Return tt, emit (ELog level msg) w).

(** *** The connection *)

Definition no_transaction : exn :=
  Error "TransactionException" "no transaction is active".

Definition connect (path : string) : M unit :=
  fun w =>
    match connect_failure h with
    | Some e => (Raise e, emit (EConnect path) w)
    | None => (Return tt, {| stored := stored w; session := None;
                             events := EConnect path :: events w |})
    end.

Definition begin : M unit :=
  fun w => (Return tt, {| stored := stored w; session := Some (stored w);
                          events := EBegin :: events w |}).

(** Inside a transaction a statement acts on the working copy;
    outside one it is committed at once. *)
Definition execute (s : stmt) : M (list string) :=
  fun w =>
    match session w with
    | Some c =>
        let (r, c') := run_stmt s c in
        (r, {| stored := stored w; session := Some c';
               events := EExecute s :: events w |})
    | None =>
        let (r, c') := run_stmt s (stored w) in
        (r, {| stored := c'; session := None;
               events := EExecute s :: events w |})
    end.

Definition commit : M unit :=
  fun w =>
    match session w with
    | Some c => (Return tt, {| stored := c; session := None;
                               events := ECommit :: events w |})
    | None => (Raise no_transaction, emit ECommit w)
    end.

Definition rollback : M unit :=
  fun w =>
    match session w with
    | Some _ => (Return tt, {| stored := stored w; session := None;
                               events := ERollback :: events w |})
    | None => (Raise no_transaction, emit ERollback w)
    end.

Definition close : M unit :=
  fun w => (Return tt, {| stored := stored w; session := None;
                          events := EClose :: events w |}).

(** *** [load_json] *)

Definition json_paths : dict string :=
  [("english", (json_dir h ++ "/columns_translated_english.json")%string);
   ("portuguese", (json_dir h ++ "/columns_translated_portuguese.json")%string)].

Definition unsupported_language : exn :=
  ValueError "Language not supported. Please choose 'english' or 'portuguese'.".

(** The three [except] clauses of lines 51-59: log, then re-raise. *)
Definition load_json_error (language json_path : string) (e : exn) : string :=
  match e with
  | FileNotFoundError _ =>
      "JSON file for '" ++ language ++ "' not found in " ++ json_path
  | JSONDecodeError _ => "Error decoding JSON file: " ++ str_exn e
  | _ => "Unexpected error: " ++ str_exn e
  end.

Definition load_json_except (language json_path : string) (e : exn)
    : M (dict string) :=
  bind (logging ERROR (load_json_error language json_path e))
       (fun _ => raise e).

Definition loaded_message (language : string) : string :=
  "Column mapping for '" ++ language ++ "' loaded successfully.".

Definition load_json (language : string) : M (dict string) :=
  if negb (dict_contains language json_paths) then raise unsupported_language
  else
    let json_path := dict_get language json_paths "" in
    fun w =>
      let w := emit (EOpen json_path) w in
      match read_mapping h json_path with
      | OpenFails e | DecodeFails e => load_json_except language json_path e w
      | NotADict e =>
          bind (logging INFO (loaded_message language))
               (fun _ => load_json_except language json_path e) w
      | Mapping m =>
          bind (logging INFO (loaded_message language)) (fun _ => ret m) w
      end.

(** *** [rename_db_columns] *)

(** Lines 98-101: the comprehension over the rows of [DESCRIBE]. *)
Definition existing_columns_of (described : list string) : dict string :=
  fold_left (fun d col => dict_set col (unidecode col) d) described [].

(** Lines 105-113. *)
Fixpoint remove_accents (table_name : string) (items : dict string) : M unit :=
  match items with
  | [] => ret tt
  | (col, normalized_col) :: rest =>
      if negb (String.eqb col normalized_col) then
        bind (execute (ALTER_RENAME table_name col normalized_col)) (fun _ =>
        bind (logging INFO ("Removed accents from column '" ++ col
                              ++ "' to '" ++ normalized_col ++ "'")) (fun _ =>
        remove_accents table_name rest))
      else remove_accents table_name rest
  end.

(** Lines 115-123; the result is [unmapped_columns]. *)
Fixpoint apply_mapping (table_name : string) (existing_columns : dict string)
    (items : dict string) (unmapped_columns : list string) : M (list string) :=
  match items with
  | [] => ret unmapped_columns
  | (old_name, new_name) :: rest =>
      let normalized_old_name := unidecode old_name in
      if str_in normalized_old_name (dict_values existing_columns) then
        bind (execute (ALTER_RENAME table_name normalized_old_name new_name))
             (fun _ => apply_mapping table_name existing_columns rest
                                     unmapped_columns)
      else
        apply_mapping table_name existing_columns rest
                      (unmapped_columns ++ [old_name])
  end.

(** Lines 98-123: what runs between [conn.begin()] and [conn.commit()]. *)
Definition transaction_steps (table_name : string) (column_mapping : dict string)
    : M (list string) :=
  bind (execute (DESCRIBE table_name)) (fun described =>
  let existing_columns := existing_columns_of described in
  bind (remove_accents table_name existing_columns) (fun _ =>
  apply_mapping table_name existing_columns column_mapping [])).

Definition unmapped_header : string :=
  "The following columns were not found in the JSON mapping or database "
    ++ "and were not renamed:".

(** Lines 133-134. *)
Fixpoint warn_each (unmapped_columns : list string) : M unit :=
  match unmapped_columns with
  | [] => ret tt
  | col :: rest =>
      bind (logging WARNING (" - " ++ col)) (fun _ => warn_each rest)
  end.

(** Lines 128-136. *)
Definition report (unmapped_columns : list string) : M unit :=
  match unmapped_columns with
  | [] => logging INFO "All columns renamed successfully."
  | _ :: _ =>
      bind (logging WARNING unmapped_header)
           (fun _ => warn_each unmapped_columns)
  end.

(** Lines 96-136: the [try] block once [conn] is bound. *)
Definition renaming (table_name : string) (column_mapping : dict string)
    : M unit :=
  bind begin (fun _ =>
  bind (transaction_steps table_name column_mapping) (fun unmapped_columns =>
  bind commit (fun _ =>
  bind close (fun _ =>
  report unmapped_columns)))).

Definition renaming_failed (e : exn) : string :=
  "Error renaming columns in DuckDB: " ++ str_exn e.

Definition conn_unbound : exn :=
  UnboundLocalError
    "cannot access local variable 'conn' where it is not associated with a value".

Definition rename_db_columns (db_path table_name language : string) : M unit :=
  fun w =>
    if negb (path_exists h db_path) then
      bind (logging ERROR ("Database not found at " ++ db_path))
           (fun _ => raise (FileNotFoundError ("Database not found at " ++ db_path)))
           w
    else
      match load_json language w with
      | (Raise e, w1) => (Raise e, w1)
      | (Return column_mapping, w1) =>
          match connect db_path w1 with
          | (Raise e, w2) =>
              (* [except]: [conn] was never assigned, [if conn:] raises *)
              bind (logging ERROR (renaming_failed e))
                   (fun _ => raise conn_unbound) w2
          | (Return _, w2) =>
              match renaming table_name column_mapping w2 with
              | (Return _, w3) => (Return tt, w3)
              | (Raise e, w3) =>
                  (* [except]: log, [conn.rollback()], re-raise *)
                  bind (logging ERROR (renaming_failed e))
                       (fun _ => bind rollback (fun _ => raise e)) w3
              end
          end
      end.

(** *** Terms of the properties of [rename_db_columns] *)

(** [w'] is reached from [w] by statements and log records inside an
    open transaction: the stored catalog is the same. *)
Definition stepped (w w' : world) : Prop :=
  stored w' = stored w
  /\ (exists c, session w' = Some c)
  /\ exists body, events w' = (body ++ events w)%list /\ Forall is_step body.

(** The world once the connection is made and the transaction begun. *)
Definition opened (db_path : string) (w1 : world) : world :=
  snd (begin (snd (connect db_path w1))).

(** *** Terms of further properties of [rename_db_columns] *)

(** The renames the loop of lines 105-113 asks for, in its order. *)
Definition accent_renames (table_name : string) (items : dict string)
    : list stmt :=
  map (fun kv => ALTER_RENAME table_name (fst kv) (snd kv))
      (filter (fun kv => negb (String.eqb (fst kv) (snd kv))) items).

(** The test of line 117 on an entry of the mapping. *)
Definition is_mapped (existing_columns : dict string) (kv : string * string)
    : bool :=
  str_in (unidecode (fst kv)) (dict_values existing_columns).

(** The renames the loop of lines 115-123 asks for, in its order. *)
Definition mapping_renames (table_name : string)
    (existing_columns column_mapping : dict string) : list stmt :=
  map (fun kv => ALTER_RENAME table_name (unidecode (fst kv)) (snd kv))
      (filter (is_mapped existing_columns) column_mapping).

(** The keys that loop appends to [unmapped_columns], in its order. *)
Definition unmapped_keys (existing_columns column_mapping : dict string)
    : list string :=
  map fst (filter (fun kv => negb (is_mapped existing_columns kv)) column_mapping).

(** All statements of one transaction, oldest first, for the columns
    [DESCRIBE] returned. *)
Definition planned (table_name : string) (described : list string)
    (column_mapping : dict string) : list stmt :=
  DESCRIBE table_name
    :: (accent_renames table_name (existing_columns_of described)
        ++ mapping_renames table_name (existing_columns_of described)
                           column_mapping)%list.

(** The log records of lines 128-136, newest first. *)
Definition report_events (unmapped_columns : list string) : list event :=
  match unmapped_columns with
  | [] => [ELog INFO "All columns renamed successfully."]
  | _ :: _ =>
      (rev (map (fun col => ELog WARNING (" - " ++ col)) unmapped_columns)
       ++ [ELog WARNING unmapped_header])%list
  end.

(** The events of [load_json]. *)
Definition is_file_event (ev : event) : Prop :=
  match ev with
  | EOpen _ | ELog _ _ => True
  | _ => False
  end.

End Engine.

Arguments world : clear implicits.
Arguments M : clear implicits.

End TransformColumns.

(** ** A reference engine and transliteration

    One concrete reading of the two external libraries, on which the
    general statements below are run: a catalog of tables with DuckDB's
    errors for a missing table, a missing column and a name already taken,
    and [unidecode] on the accented lower-case letters of Portuguese in
    their UTF-8 encoding. *)

Module Reference.
Import TransformColumns.

Definition catalog : Type := list (string * list string).

Fixpoint table_columns (t : string) (c : catalog) : option (list string) :=
  match c with
  | [] => None
  | (t', cols) :: c' => if String.eqb t t' then Some cols else table_columns t c'
  end.

Fixpoint set_table_columns (t : string) (cols : list string) (c : catalog)
    : catalog :=
  match c with
  | [] => []
  | (t', cols') :: c' =>
      if String.eqb t t' then (t', cols) :: c'
      else (t', cols') :: set_table_columns t cols c'
  end.

Definition rename_column (old new : string) (cols : list string) : list string :=
  map (fun c => if String.eqb c old then new else c) cols.

Definition run_stmt (s : stmt) (c : catalog) : result (list string) * catalog :=
  match s with
  | DESCRIBE t =>
      match table_columns t c with
      | Some cols => (Return cols, c)
      | None => (Raise (Error "CatalogException" ("Table " ++ t ++ " does not exist")), c)
      end
  | ALTER_RENAME t old new =>
      match table_columns t c with
      | None => (Raise (Error "CatalogException" ("Table " ++ t ++ " does not exist")), c)
      | Some cols =>
          if negb (str_in old cols) then
            (Raise (Error "BinderException" ("Column " ++ old ++ " does not exist")), c)
          else if str_in new cols then
            (Raise (Error "CatalogException" ("Column " ++ new ++ " already exists")), c)
          else (Return [], set_table_columns t (rename_column old new cols) c)
      end
  end.

(** The second byte of a two-byte UTF-8 letter that starts with 0xC3. *)
Definition latin_base (b : nat) : option ascii :=
  match b with
  | 160 | 161 | 162 | 163 => Some "a"%char
  | 167 => Some "c"%char
  | 169 | 170 => Some "e"%char
  | 173 => Some "i"%char
  | 179 | 180 | 181 => Some "o"%char
  | 186 => Some "u"%char
  | _ => None
  end.

Fixpoint unidecode (s : string) : string :=
  match s with
  | EmptyString => EmptyString
  | String c1 tail =>
      match tail with
      | String c2 rest =>
          if (nat_of_ascii c1 =? 195)%nat then
            match latin_base (nat_of_ascii c2) with
            | Some a => String a (unidecode rest)
            | None => String c1 (unidecode tail)
            end
          else String c1 (unidecode tail)
      | EmptyString => String c1 EmptyString
      end
  end.

(** "a" with an acute accent, then "rea": the bytes of "área". *)
Definition a_acute : string :=
  String (ascii_of_nat 195) (String (ascii_of_nat 161) EmptyString).

Definition area : string := a_acute ++ "rea".

Definition host_with (m : file_outcome) : host :=
  {| json_dir := "json";
     path_exists := fun p => String.eqb p "data/db/db.db";
     read_mapping := fun _ => m;
     connect_failure := None |}.

Definition world0 (cols : list string) : world catalog :=
  {| stored := [("sinan", cols)]; session := None; events := [] |}.

Definition run (m : file_outcome) (cols : list string)
    : result unit * world catalog :=
  rename_db_columns run_stmt unidecode (host_with m)
                    "data/db/db.db" "sinan" "english" (world0 cols).

(** A mapping file that is not there. *)
Definition no_file : file_outcome :=
  OpenFails (FileNotFoundError "[Errno 2] No such file or directory").

(** Both keys become "area": the first rename runs, the second fails. *)
Definition clash : dict string := [("area", "x"); (area, "y")].

(** A JSON file that holds a list, a database file that is locked, and a
    mapping with one key that is a column and one that is not. *)
Definition a_list : file_outcome :=
  NotADict (Error "TypeError" "cannot convert dictionary update sequence element").

Definition locked_host (m : file_outcome) : host :=
  {| json_dir := "json";
     path_exists := fun p => String.eqb p "data/db/db.db";
     read_mapping := fun _ => m;
     connect_failure := Some (Error "IOException" "Could not set lock on file") |}.

Definition partial : dict string := [("area", "area_km2"); ("idade", "age")].

End Reference.

(** ** Reference tables and collaborators *)

Module Tables.
Import GetInfo.

(** A table of integers and collaborators that load it unchanged. *)
Definition quiet_lib (data : DataFrame Z) : collaborators Z unit unit :=
  {| construct := ret tt;
     extract_parquet := fun _ _ => ret tt;
     insert_parquet_to_duck := fun _ => ret tt;
     rename_db_columns := ret tt;
     transform_db := ret tt;
     load_data := fun _ _ => ret data |}.

(** Collaborators whose loader raises. *)
Definition failing_lib : collaborators Z unit unit :=
  {| construct := ret tt;
     extract_parquet := fun _ _ => ret tt;
     insert_parquet_to_duck := fun _ => ret tt;
     rename_db_columns := ret tt;
     transform_db := ret tt;
     load_data := fun _ _ p => (Raise (Error "CatalogException" "no table"), p) |}.

(** A process with logging enabled. *)
Definition process0 : process unit :=
  {| manager_disable := NOTSET; emitted := []; outside := tt |}.

(** Two columns, two rows; row 0 has a value and a null. *)
Definition sample : DataFrame Z :=
  {| columns := ["a"; "b"];
     rows := [(0%Z, [Some 1%Z; None]); (1%Z, [Some 2%Z; Some 3%Z])] |}.

(** One column without a value, and a table without a null. *)
Definition hollow : DataFrame Z :=
  {| columns := ["a"]; rows := [(0%Z, [None]); (1%Z, [None])] |}.

Definition complete : DataFrame Z :=
  {| columns := ["a"; "b"];
     rows := [(0%Z, [Some 1%Z; Some 4%Z]); (1%Z, [Some 2%Z; Some 3%Z])] |}.

End Tables.

(* ================================================================== *)
(** * Part II.  Properties                                             *)
(* ================================================================== *)

(** ** Runs on concrete inputs *)

Example get_years_CHIK :
  GetInfo.get_years (fun _ => ["CHIKBR15.parquet"; "CHIKBR17.parquet"]) "CHIK"
  = "Error: Only DENG, ZIKA, and CHIK are allowed.".
Proof. reflexivity. Qed.

Example get_years_no_code :
  GetInfo.get_years (fun _ => ["CHIKBR17.parquet"; "readme.txt"; "CHIKBR15.parquet"]) ""
  = "The available data for  is from the years: 2015, 2017.".
Proof. reflexivity. Qed.

Example unidecode_area : Reference.unidecode Reference.area = "area".
Proof. reflexivity. Qed.

(** Accents are stripped, then the mapping is applied; "idade" is not a
    column and is reported. *)
Example rename_run :
  let (r, w) := Reference.run
                  (TransformColumns.Mapping [("area", "area_km2"); ("idade", "age")])
                  [Reference.area; "uf"] in
  r = Return tt
  /\ TransformColumns.stored w = [("sinan", ["area_km2"; "uf"])]
  /\ In (TransformColumns.ELog WARNING " - idade") (TransformColumns.events w).
Proof. vm_compute. intuition. Qed.

(** Two keys with one accent-free form: the second rename fails, and the
    first one is undone with it. *)
Example rename_run_clash :
  let (r, w) := Reference.run
                  (TransformColumns.Mapping [("area", "x"); (Reference.area, "y")])
                  ["area"; "uf"] in
  r = Raise (Error "BinderException" "Column area does not exist")
  /\ TransformColumns.stored w = [("sinan", ["area"; "uf"])]
  /\ hd_error (TransformColumns.events w) = Some TransformColumns.ERollback.
Proof. vm_compute. intuition. Qed.

(** ** [get_years]: the validity check *)

Module GetYearsCheck.
Import GetInfo.

(** No key of [valid_diseases] is a single character. *)
Lemma character_is_no_key (c : ascii) :
  dict_contains (String c EmptyString) valid_diseases = false.
Proof.
  unfold dict_contains, valid_diseases; cbn [existsb fst String.eqb].
  destruct (Ascii.eqb c "D"), (Ascii.eqb c "Z"), (Ascii.eqb c "C"); reflexivity.
Qed.

Lemma any_invalid_nonempty (c : ascii) (s : string) :
  any_invalid (String c s) = true.
Proof.
  unfold any_invalid, chars; cbn [list_ascii_of_string map existsb].
  now rewrite character_is_no_key.
Qed.

Lemma any_invalid_true_iff (disease : string) :
  any_invalid disease = true <-> disease <> "".
Proof.
  destruct disease as [|c s].
  - split; [discriminate | congruence].
  - split; [discriminate | intros _; apply any_invalid_nonempty].
Qed.

Lemma error_is_no_listing (d : string) (ys : list Z) :
  error_message <> years_message d ys.
Proof. unfold error_message, years_message; cbn; discriminate. Qed.

(** C2.  A disease string with a character that occurs in none of DENG,
    ZIKA, CHIK makes [get_years] return the fixed error message, as an
    ordinary value, and that value is not a listing of years. *)
Theorem get_years_foreign_character
    (get_files : list string -> list string) (disease : string) (c : ascii) :
  In c (list_ascii_of_string disease) ->
  ~ In c code_characters ->
  get_years get_files disease = "Error: Only DENG, ZIKA, and CHIK are allowed."
  /\ forall d ys, get_years get_files disease <> years_message d ys.
Proof.
  intros Hc _.
  assert (E : get_years get_files disease = error_message).
  { destruct disease as [|a s]; [destruct Hc|].
    unfold get_years; now rewrite any_invalid_nonempty. }
  split; [exact E|].
  intros d ys; rewrite E; apply error_is_no_listing.
Qed.

Lemma get_years_foreign_character_witness :
  In "X"%char (list_ascii_of_string "DENX")
  /\ ~ In "X"%char code_characters
  /\ get_years (fun _ => ["DENGBR20.parquet"]) "DENX"
     = "Error: Only DENG, ZIKA, and CHIK are allowed.".
Proof.
  assert (H1 : In "X"%char (list_ascii_of_string "DENX")).
  { cbn; tauto. }
  assert (H2 : ~ In "X"%char code_characters).
  { cbn; intuition discriminate. }
  split; [exact H1|]; split; [exact H2|].
  exact (proj1 (get_years_foreign_character
                  (fun _ => ["DENGBR20.parquet"]) "DENX" "X"%char H1 H2)).
Defined.

(** C3.  Every non-empty disease string, the three valid codes
    included, gets the error message: the check looks up single
    characters among the four-letter keys.  Only the empty string
    passes the check. *)
Theorem get_years_nonempty_is_error
    (get_files : list string -> list string) (disease : string) :
  (disease <> "" ->
     get_years get_files disease = "Error: Only DENG, ZIKA, and CHIK are allowed.")
  /\ (forall code, dict_contains code valid_diseases = true ->
        get_years get_files code = "Error: Only DENG, ZIKA, and CHIK are allowed.")
  /\ (any_invalid disease = false <-> disease = "")
  /\ get_years get_files "" = years_message "" (years get_files "").
Proof.
  assert (NE : forall d, d <> "" -> get_years get_files d = error_message).
  { intros d Hd; unfold get_years.
    now rewrite (proj2 (any_invalid_true_iff d) Hd). }
  split; [apply NE|]; split; [|split].
  - intros code Hk; apply NE; intros ->; discriminate Hk.
  - destruct disease as [|c s].
    + split; reflexivity.
    + rewrite any_invalid_nonempty; split; discriminate.
  - reflexivity.
Qed.

Lemma get_years_nonempty_is_error_witness :
  get_years (fun _ => ["ZIKABR16.parquet"; "ZIKABR19.parquet"]) "ZIKA"
  = "Error: Only DENG, ZIKA, and CHIK are allowed.".
Proof.
  apply (proj1 (get_years_nonempty_is_error
                  (fun _ => ["ZIKABR16.parquet"; "ZIKABR19.parquet"]) "ZIKA")).
  discriminate.
Defined.

End GetYearsCheck.

(** ** [get_years]: the years derived from the file names *)

Module GetYearsList.
Import GetInfo.

Lemma match_BR_here_Some (s : string) (d1 d2 : ascii) :
  match_BR_here s = Some (d1, d2) ->
  exists post, s = String "B" (String "R" (String d1 (String d2 post)))
               /\ is_digit d1 = true /\ is_digit d2 = true.
Proof.
  destruct s as [|b [|r [|e1 [|e2 post]]]]; cbn; try discriminate.
  destruct (Ascii.eqb_spec b "B"); [|discriminate].
  destruct (Ascii.eqb_spec r "R"); [|discriminate].
  destruct (is_digit e1) eqn:D1; [|discriminate].
  destruct (is_digit e2) eqn:D2; [|discriminate].
  cbn; intros [= <- <-]; subst; eauto.
Qed.

Lemma match_BR_here_fragment (d1 d2 : ascii) (post : string) :
  is_digit d1 = true -> is_digit d2 = true ->
  match_BR_here (String "B" (String "R" (String d1 (String d2 post))))
  = Some (d1, d2).
Proof. intros H1 H2; cbn; now rewrite H1, H2. Qed.

Lemma re_search_BR_sound (file : string) (d1 d2 : ascii) :
  re_search_BR file = Some (d1, d2) -> contains_BR file d1 d2.
Proof.
  induction file as [|a s IH]; [discriminate|].
  cbn [re_search_BR].
  destruct (match_BR_here (String a s)) as [[e1 e2]|] eqn:E.
  - intros [= <- <-].
    destruct (match_BR_here_Some _ _ _ E) as (post & -> & H1 & H2).
    exists "", post; auto.
  - intros H; destruct (IH H) as (pre & post & -> & H1 & H2).
    exists (String a pre), post; auto.
Qed.

Lemma re_search_BR_complete (file : string) (d1 d2 : ascii) :
  contains_BR file d1 d2 -> exists g, re_search_BR file = Some g.
Proof.
  intros (pre & post & -> & H1 & H2).
  induction pre as [|a pre IH].
  - cbn [append re_search_BR].
    rewrite (match_BR_here_fragment _ _ post H1 H2); eauto.
  - cbn [append re_search_BR].
    destruct (match_BR_here _); eauto.
Qed.

Lemma digit_value_range (c : ascii) :
  is_digit c = true -> (0 <= digit_value c <= 9)%Z.
Proof.
  unfold is_digit, digit_value; intros H.
  apply andb_prop in H; destruct H as [L U].
  apply Nat.leb_le in L; apply Nat.leb_le in U; lia.
Qed.

Lemma insert_sorted_perm (x : Z) (l : list Z) :
  Permutation (x :: l) (insert_sorted x l).
Proof.
  induction l as [|y l IH]; cbn; [reflexivity|].
  destruct (x <=? y)%Z; [reflexivity|].
  rewrite perm_swap; now constructor.
Qed.

Lemma sorted_perm (l : list Z) : Permutation l (sorted l).
Proof.
  induction l as [|x l IH]; cbn; [constructor|].
  rewrite <- insert_sorted_perm; now constructor.
Qed.

Lemma insert_sorted_HdRel (a x : Z) (l : list Z) :
  (a <= x)%Z -> HdRel Z.le a l -> HdRel Z.le a (insert_sorted x l).
Proof.
  intros Hax H; destruct l as [|y l]; cbn; [now constructor|].
  destruct (x <=? y)%Z; constructor; [assumption|now inversion H].
Qed.

Lemma insert_sorted_Sorted (x : Z) (l : list Z) :
  Sorted Z.le l -> Sorted Z.le (insert_sorted x l).
Proof.
  induction 1 as [|y l Hs IH Hd]; cbn; [repeat constructor|].
  destruct (x <=? y)%Z eqn:E.
  - apply Z.leb_le in E; repeat constructor; assumption.
  - apply Z.leb_gt in E; constructor; [assumption|].
    apply insert_sorted_HdRel; [lia|assumption].
Qed.

Lemma sorted_Sorted (l : list Z) : Sorted Z.le (sorted l).
Proof.
  induction l as [|x l IH]; cbn; [constructor|now apply insert_sorted_Sorted].
Qed.

Lemma years_of_files_In (files : list string) (y : Z) :
  In y (years_of_files files)
  <-> exists file, In file files /\ year_of_file file = Some y.
Proof.
  induction files as [|f files IH]; cbn.
  - split; [tauto | intros (? & [] & _)].
  - destruct (year_of_file f) as [z|] eqn:E; cbn; rewrite IH; split.
    + intros [<- | (g & Hg & Ey)]; eauto.
    + intros (g & [<- | Hg] & Ey); [left; congruence | eauto].
    + intros (g & Hg & Ey); eauto.
    + intros (g & [<- | Hg] & Ey); [congruence | eauto].
Qed.

Lemma year_of_file_Some (file : string) (y : Z) :
  year_of_file file = Some y ->
  exists d1 d2, contains_BR file d1 d2 /\ y = (int_group (d1, d2) + 2000)%Z.
Proof.
  unfold year_of_file.
  destruct (re_search_BR file) as [[d1 d2]|] eqn:E; [|discriminate].
  intros [= <-]; exists d1, d2; split; [now apply re_search_BR_sound|reflexivity].
Qed.

Example year_of_CHIKBR17 : year_of_file "CHIKBR17.parquet" = Some 2017%Z.
Proof. reflexivity. Qed.

End GetYearsList.

(** ** [get_data_from_table]: cleaning and the logging manager *)

Module GetDataFromTable.
Import GetInfo Tables.

Section Facts.

Context {value store files : Type}.
Variable lib : collaborators value store files.

Lemma keeps_level_bind {A B} (m : M store A) (k : A -> M store B) :
  keeps_level m -> (forall a, keeps_level (k a)) -> keeps_level (bind m k).
Proof.
  intros Hm Hk p; unfold bind; specialize (Hm p).
  destruct (m p) as [[a|e] p']; cbn in *; [|assumption].
  now rewrite Hk.
Qed.

Lemma keeps_level_ret {A} (a : A) : keeps_level (store := store) (ret a).
Proof. intros p; reflexivity. Qed.

Lemma keeps_level_warning (msg : string) :
  keeps_level (store := store) (logging_warning msg).
Proof.
  intros p; unfold logging_warning.
  now destruct (WARNING <=? manager_disable p)%Z.
Qed.

Lemma keeps_level_clean (data : DataFrame value) :
  keeps_level (store := store) (clean data).
Proof.
  unfold clean.
  destruct (_ || _); [|destruct (is_empty _)];
    auto using keeps_level_bind, keeps_level_warning, keeps_level_ret.
Qed.

Lemma keeps_level_load table years disease limit :
  collaborators_keep_level lib ->
  keeps_level (load_table lib table years disease limit).
Proof.
  intros (H1 & H2 & H3 & H4 & H5 & H6); unfold load_table.
  repeat (apply keeps_level_bind; [auto|intros ?]); auto.
Qed.

(** The function in one piece, for either value of [verbose]. *)
Lemma get_data_unfold table years disease limit verbose p :
  get_data_from_table lib table years disease limit verbose p
  = let (r, p') := bind (load_table lib table years disease limit) clean
                        (on_entry verbose p) in
    (r, on_exit verbose p').
Proof.
  unfold get_data_from_table, on_entry, on_exit, try_finally.
  destruct verbose; cbn [negb]; unfold bind at 1; cbn.
  - now destruct (bind _ _ p) as [r p'].
  - now destruct (bind _ _ _) as [r p'].
Qed.

(** C10.  With [verbose=False] the manager's level is CRITICAL when
    the [try] block starts and NOTSET when the call ends, whether it
    returns or lets an exception of the block through; with
    [verbose=True] the call itself never sets the level, so it stays
    what it was when no collaborator changes it. *)
Theorem get_data_from_table_logging table years disease limit p :
  let body := bind (load_table lib table years disease limit) clean in
  manager_disable (on_entry false p) = CRITICAL
  /\ (forall r p', body (on_entry false p) = (r, p') ->
        get_data_from_table lib table years disease limit false p
        = (r, snd (logging_disable NOTSET p')))
  /\ manager_disable
       (snd (get_data_from_table lib table years disease limit false p))
     = NOTSET
  /\ get_data_from_table lib table years disease limit true p = body p
  /\ (collaborators_keep_level lib ->
        manager_disable
          (snd (get_data_from_table lib table years disease limit true p))
        = manager_disable p).
Proof.
  intros body; subst body; repeat split.
  - intros r p' E; rewrite get_data_unfold; now rewrite E.
  - rewrite get_data_unfold; now destruct (bind _ _ _).
  - rewrite get_data_unfold; cbn [on_entry on_exit];
      now destruct (bind _ _ p).
  - intros K; rewrite get_data_unfold; cbn [on_entry on_exit].
    pose proof (keeps_level_bind _ _
                  (keeps_level_load table years disease limit K)
                  keeps_level_clean p) as E.
    now destruct (bind _ _ p).
Qed.

(** *** Cleaning *)



Lemma length_zero_nil {A} (l : list A) : (length l =? 0)%nat = true -> l = [].
Proof. destruct l; [reflexivity|discriminate]. Qed.

Lemma cleaned_rows (data : DataFrame value) :
  rows (cleaned data)
  = match columns (dropna_columns_all data) with
    | [] => []
    | _ :: _ => filter row_complete (rows (dropna_columns_all data))
    end.
Proof.
  unfold cleaned, is_empty, n_columns.
  set (d1 := dropna_columns_all data).
  destruct (columns d1) as [|c cs] eqn:C; [reflexivity|].
  cbn [length Nat.eqb orb].
  destruct (length (rows d1) =? 0)%nat eqn:R; cbn [orb].
  - now rewrite (length_zero_nil _ R).
  - cbn [dropna columns rows]; rewrite C; cbn [length Nat.eqb orb].
    destruct (length (filter _ _) =? 0)%nat eqn:F; [|reflexivity].
    now rewrite (length_zero_nil _ F).
Qed.




End Facts.

Lemma get_data_from_table_logging_witness :
  collaborators_keep_level (quiet_lib sample)
  /\ manager_disable
       (snd (get_data_from_table (quiet_lib sample) "exams" [2022%Z] "CHIK" None
                                 true process0))
     = manager_disable process0.
Proof.
  assert (K : collaborators_keep_level (quiet_lib sample)).
  { repeat split. }
  split; [exact K|].
  exact (proj2 (proj2 (proj2 (proj2
           (get_data_from_table_logging (quiet_lib sample)
              "exams" [2022%Z] "CHIK" None process0)))) K).
Defined.

(** With [verbose=False] a failing loader leaves the level at NOTSET. *)
Example failing_load_resets_level :
  get_data_from_table failing_lib "exams" [2022%Z] "CHIK" None false
                      {| manager_disable := WARNING; emitted := []; outside := tt |}
  = (Raise (Error "CatalogException" "no table"),
     {| manager_disable := NOTSET; emitted := []; outside := tt |}).
Proof. reflexivity. Qed.



End GetDataFromTable.

(** ** [load_json] and [rename_db_columns] *)

Module RenameColumns.
Import TransformColumns.

Section Facts.

Context {catalog : Type}.
Variable run_stmt : stmt -> catalog -> result (list string) * catalog.
Variable unidecode : string -> string.
Variable h : host.

(** *** [load_json] *)

Lemma unsupported_not_key (language : string) :
  language <> "english" -> language <> "portuguese" ->
  dict_contains language (json_paths h) = false.
Proof.
  intros H1 H2; unfold dict_contains, json_paths; cbn [existsb fst].
  apply String.eqb_neq in H1, H2; now rewrite H1, H2.
Qed.

(** C8.  A language other than 'english' and 'portuguese' raises
    [ValueError] with nothing opened and nothing logged.  For the two
    supported languages, a failure to open the file or to decode it
    is logged at ERROR level and the same exception is raised. *)
Theorem load_json_failures (language : string) (w : world catalog) :
  (language <> "english" -> language <> "portuguese" ->
     load_json h language w
     = (Raise (ValueError
          "Language not supported. Please choose 'english' or 'portuguese'."),
        w))
  /\ (language = "english" \/ language = "portuguese" ->
      forall e,
        let json_path := dict_get language (json_paths h) "" in
        read_mapping h json_path = OpenFails e
        \/ read_mapping h json_path = DecodeFails e ->
        load_json h language w
        = (Raise e,
           emit (ELog ERROR (load_json_error language json_path e))
                (emit (EOpen json_path) w))).
Proof.
  split.
  - intros H1 H2; unfold TransformColumns.load_json.
    now rewrite (unsupported_not_key _ H1 H2).
  - intros L e json_path R; unfold TransformColumns.load_json.
    assert (K : dict_contains language (json_paths h) = true)
      by (destruct L as [-> | ->]; reflexivity).
    rewrite K; cbn [negb]; fold json_path.
    destruct R as [-> | ->]; reflexivity.
Qed.

Lemma load_json_frame (language : string) (w w1 : world catalog) r :
  load_json h language w = (r, w1) ->
  stored w1 = stored w /\ session w1 = session w.
Proof.
  unfold TransformColumns.load_json.
  destruct (negb _); [intros [= _ <-]; auto|].
  destruct (read_mapping h _); intros [= _ <-]; auto.
Qed.

(** *** Missing database file *)

(** C7.  When the database file does not exist the call raises
    [FileNotFoundError] at once: its only effect is the error record;
    no mapping file is opened, no connection or transaction is
    started, no statement runs and the stored catalog is untouched. *)
Theorem rename_db_columns_missing_database
    (db_path table_name language : string) (w : world catalog) :
  path_exists h db_path = false ->
  rename_db_columns run_stmt unidecode h db_path table_name language w
  = (Raise (FileNotFoundError ("Database not found at " ++ db_path)),
     {| stored := stored w; session := session w;
        events := ELog ERROR ("Database not found at " ++ db_path) :: events w |}).
Proof.
  intros E; unfold TransformColumns.rename_db_columns; now rewrite E.
Qed.

(** *** The accent stage *)

Lemma remove_accents_fixed (table_name : string) (items : dict string)
    (w : world catalog) :
  Forall (fun kv => snd kv = fst kv) items ->
  remove_accents run_stmt table_name items w = (Return tt, w).
Proof.
  induction 1 as [|[col n] items E _ IH]; cbn; [reflexivity|].
  cbn in E; subst n; now rewrite String.eqb_refl.
Qed.

Lemma dict_set_entries (k : string) (d : dict string) :
  Forall (fun kv => snd kv = unidecode (fst kv)) d ->
  Forall (fun kv => snd kv = unidecode (fst kv)) (dict_set k (unidecode k) d).
Proof.
  induction 1 as [|[k' v'] d E F IH]; cbn.
  - constructor; [reflexivity|constructor].
  - destruct (String.eqb_spec k k') as [->|]; constructor; auto.
Qed.

Lemma dict_set_keys (k x : string) (d : dict string) :
  In x (map fst (dict_set k (unidecode k) d)) <-> x = k \/ In x (map fst d).
Proof.
  induction d as [|[k' v'] d IH]; cbn.
  - intuition.
  - destruct (String.eqb_spec k k') as [->|]; cbn; [|rewrite IH]; intuition.
Qed.

Lemma existing_columns_fold (described : list string) (d : dict string) :
  Forall (fun kv => snd kv = unidecode (fst kv)) d ->
  let d' := fold_left (fun d col => dict_set col (unidecode col) d) described d in
  Forall (fun kv => snd kv = unidecode (fst kv)) d'
  /\ forall x, In x (map fst d') <-> In x described \/ In x (map fst d).
Proof.
  revert d; induction described as [|col l IH]; intros d Hd; cbn.
  - intuition.
  - destruct (IH _ (dict_set_entries col d Hd)) as [F K]; split; [exact F|].
    intros x; rewrite K, dict_set_keys; intuition.
Qed.

(** The dictionary of lines 98-101: one entry per described column,
    holding its transliteration. *)
Lemma existing_columns_spec (described : list string) :
  Forall (fun kv => snd kv = unidecode (fst kv)) (existing_columns_of unidecode described)
  /\ forall x, In x (map fst (existing_columns_of unidecode described)) <-> In x described.
Proof.
  destruct (existing_columns_fold described [] (Forall_nil _)) as [F K].
  split; [exact F|]; intros x; rewrite (K x); cbn; intuition.
Qed.

Lemma existing_values (described : list string) (x : string) :
  In x (dict_values (existing_columns_of unidecode described))
  <-> In x (map unidecode described).
Proof.
  destruct (existing_columns_spec described) as [F K].
  unfold dict_values; rewrite !in_map_iff; split.
  - intros ([k v] & <- & Hin); exists k; split.
    + rewrite Forall_forall in F; symmetry; exact (F _ Hin).
    + apply K, in_map_iff; exists (k, v); auto.
  - intros (k & <- & Hin).
    apply K, in_map_iff in Hin; destruct Hin as ([k' v] & <- & Hin).
    exists (k', v); split; [|exact Hin].
    rewrite Forall_forall in F; exact (F _ Hin).
Qed.

(** C4.  On described columns that all equal their transliteration,
    the accent stage issues no statement and changes nothing: the
    working catalog, the stored one and the events are as before. *)
Theorem remove_accents_idempotent
    (table_name : string) (described : list string) (w : world catalog) :
  Forall (fun col => unidecode col = col) described ->
  remove_accents run_stmt table_name (existing_columns_of unidecode described) w = (Return tt, w)
  /\ statements (events (snd (remove_accents run_stmt table_name
                                (existing_columns_of unidecode described) w)))
     = statements (events w).
Proof.
  intros A.
  assert (E : remove_accents run_stmt table_name (existing_columns_of unidecode described) w
              = (Return tt, w)).
  { apply remove_accents_fixed.
    destruct (existing_columns_spec described) as [F K].
    rewrite Forall_forall in *; intros [k v] Hin.
    pose proof (F _ Hin) as Fk; cbn in Fk |- *; subst v.
    apply A, K, in_map_iff; exists (k, unidecode k); auto. }
  now rewrite E.
Qed.

(** *** The transaction *)

Lemma stepped_refl (w : world catalog) (c : catalog) :
  session w = Some c -> stepped w w.
Proof. intros S; split; [|split]; eauto; now exists []. Qed.

Lemma stepped_trans (w1 w2 w3 : world catalog) :
  stepped w1 w2 -> stepped w2 w3 -> stepped w1 w3.
Proof.
  intros (S1 & C1 & b1 & E1 & F1) (S2 & C2 & b2 & E2 & F2).
  split; [congruence|]; split; [assumption|].
  exists (b2 ++ b1)%list; split; [now rewrite E2, E1, app_assoc|].
  apply Forall_app; auto.
Qed.

Lemma execute_stepped (s : stmt) (w w' : world catalog) r (c : catalog) :
  session w = Some c -> execute run_stmt s w = (r, w') -> stepped w w'.
Proof.
  unfold execute; intros ->.
  destruct (run_stmt s c) as [r0 c']; intros [= _ <-].
  split; [|split]; cbn; eauto.
  exists [EExecute s]; split; [reflexivity|repeat constructor].
Qed.

Lemma logging_stepped (level : Z) (msg : string) (w : world catalog) (c : catalog) :
  session w = Some c -> stepped w (emit (ELog level msg) w).
Proof.
  intros S; split; [|split]; cbn; eauto.
  exists [ELog level msg]; split; [reflexivity|repeat constructor].
Qed.

Lemma remove_accents_stepped (table_name : string) (items : dict string) :
  forall (w w' : world catalog) r c,
    session w = Some c ->
    remove_accents run_stmt table_name items w = (r, w') -> stepped w w'.
Proof.
  induction items as [|[col n] items IH]; intros w w' r c S;
    cbn [remove_accents].
  - intros [= _ <-]; eapply stepped_refl; eauto.
  - destruct (negb _); [|now apply IH with (c := c)].
    unfold bind at 1.
    destruct (execute run_stmt _ w) as [[rows|e] w1] eqn:X.
    + pose proof (execute_stepped _ _ _ _ _ S X) as T1.
      unfold bind at 1, logging at 1; intros R.
      eapply stepped_trans; [exact T1|].
      destruct T1 as (_ & (c1 & C1) & _).
      eapply stepped_trans; [eapply logging_stepped; exact C1|].
      eapply IH; [|exact R]; exact C1.
    + intros [= _ <-]; exact (execute_stepped _ _ _ _ _ S X).
Qed.

Lemma apply_mapping_stepped (table_name : string) (ex items : dict string) :
  forall acc (w w' : world catalog) r c,
    session w = Some c ->
    apply_mapping run_stmt unidecode table_name ex items acc w = (r, w') ->
    stepped w w'.
Proof.
  induction items as [|[old new] items IH]; intros acc w w' r c S;
    cbn [apply_mapping].
  - intros [= _ <-]; eapply stepped_refl; eauto.
  - destruct (str_in _ _); [|now apply IH with (c := c)].
    unfold bind at 1.
    destruct (execute run_stmt _ w) as [[rows|e] w1] eqn:X.
    + pose proof (execute_stepped _ _ _ _ _ S X) as T1.
      intros R; eapply stepped_trans; [exact T1|].
      destruct T1 as (_ & (c1 & C1) & _); eapply IH; eauto.
    + intros [= _ <-]; exact (execute_stepped _ _ _ _ _ S X).
Qed.

Lemma transaction_steps_stepped (table_name : string) (m : dict string)
    (w w' : world catalog) r c :
  session w = Some c ->
  transaction_steps run_stmt unidecode table_name m w = (r, w') ->
  stepped w w'.
Proof.
  intros S; unfold transaction_steps, bind at 1.
  destruct (execute run_stmt _ w) as [[described|e] w1] eqn:X;
    [|intros [= _ <-]; exact (execute_stepped _ _ _ _ _ S X)].
  pose proof (execute_stepped _ _ _ _ _ S X) as T1.
  unfold bind at 1.
  destruct (remove_accents run_stmt _ _ w1) as [[[]|e] w2] eqn:A.
  - intros R; eapply stepped_trans; [exact T1|].
    destruct T1 as (_ & (c1 & C1) & _).
    pose proof (remove_accents_stepped _ _ _ _ _ _ C1 A) as T2.
    eapply stepped_trans; [exact T2|].
    destruct T2 as (_ & (c2 & C2) & _); eapply apply_mapping_stepped; eauto.
  - intros [= _ <-]; eapply stepped_trans; [exact T1|].
    destruct T1 as (_ & (c1 & C1) & _).
    eapply remove_accents_stepped; eauto.
Qed.

Lemma opened_eq (db_path : string) (w1 : world catalog) :
  connect_failure h = None ->
  connect h db_path w1
    = (Return tt, {| stored := stored w1; session := None;
                     events := EConnect db_path :: events w1 |})
  /\ opened h db_path w1
     = {| stored := stored w1; session := Some (stored w1);
          events := EBegin :: EConnect db_path :: events w1 |}.
Proof. unfold opened, connect; intros ->; split; reflexivity. Qed.

Lemma renaming_unfold (table_name : string) (m : dict string)
    (w2 : world catalog) :
  renaming run_stmt unidecode table_name m w2
  = match transaction_steps run_stmt unidecode table_name m (snd (begin w2)) with
    | (Return unmapped_columns, wT) =>
        bind commit (fun _ => bind close (fun _ => report unmapped_columns)) wT
    | (Raise e, wT) => (Raise e, wT)
    end.
Proof. reflexivity. Qed.

(** *** Unmapped entries *)

Lemma str_in_false (x : string) (l : list string) :
  ~ In x l -> str_in x l = false.
Proof.
  unfold str_in; induction l as [|y l IH]; cbn; [reflexivity|].
  intros N; destruct (String.eqb_spec x y) as [->|]; cbn.
  - destruct N; now left.
  - apply IH; intros I; apply N; now right.
Qed.

Lemma statements_app (a b : list event) :
  statements (a ++ b) = (statements a ++ statements b)%list.
Proof.
  induction a as [|ev a IH]; cbn; [reflexivity|].
  destruct ev; cbn; now rewrite ?IH.
Qed.

(** The world a loop leaves does not depend on what is already in
    [unmapped_columns], and nothing is taken out of that list. *)
Lemma apply_mapping_acc (table_name : string) (ex items : dict string) :
  forall acc (w w' : world catalog) u,
    apply_mapping run_stmt unidecode table_name ex items acc w = (Return u, w') ->
    forall acc',
    exists u',
      apply_mapping run_stmt unidecode table_name ex items acc' w
        = (Return u', w')
      /\ incl acc' u'.
Proof.
  induction items as [|[old new] items IH]; intros acc w w' u;
    cbn [apply_mapping].
  - intros [= _ <-] acc'; exists acc'; split; [reflexivity|apply incl_refl].
  - destruct (str_in _ _).
    + unfold bind.
      destruct (execute run_stmt _ w) as [[rows|e] w1]; [|discriminate].
      intros R acc'; exact (IH _ _ _ _ R acc').
    + intros R acc'.
      destruct (IH _ _ _ _ R (acc' ++ [old])%list) as (u' & E & I).
      exists u'; split; [exact E|].
      intros x Hx; apply I, in_or_app; now left.
Qed.

(** An entry whose key matches no column is passed over: the loop
    goes on as without it, and ends with the key among the unmapped. *)
Lemma apply_mapping_skip (table_name : string) (ex : dict string)
    (k v : string) (m2 : dict string) :
  str_in (unidecode k) (dict_values ex) = false ->
  forall m1 acc (w w' : world catalog) u0,
    apply_mapping run_stmt unidecode table_name ex (m1 ++ m2)%list acc w
      = (Return u0, w') ->
    exists u,
      apply_mapping run_stmt unidecode table_name ex
                    (m1 ++ (k, v) :: m2)%list acc w
        = (Return u, w')
      /\ In k u.
Proof.
  intros N; induction m1 as [|[old new] m1 IH]; intros acc w w' u0;
    cbn [app apply_mapping].
  - intros R; rewrite N.
    destruct (apply_mapping_acc _ _ _ _ _ _ _ R (acc ++ [k])%list)
      as (u & E & I).
    exists u; split; [exact E|].
    apply I, in_or_app; right; now left.
  - destruct (str_in (unidecode old) _).
    + unfold bind.
      destruct (execute run_stmt _ w) as [[rows|e] w1]; [|discriminate].
      apply IH.
    + apply IH.
Qed.

Lemma warn_each_spec (u : list string) :
  forall w : world catalog,
  exists logs,
    warn_each u w
    = (Return tt, {| stored := stored w; session := session w;
                     events := (logs ++ events w)%list |})
    /\ statements logs = []
    /\ forall k, In k u -> In (ELog WARNING (" - " ++ k)) logs.
Proof.
  induction u as [|col u IH]; intros w; cbn [warn_each].
  - exists []; split; [now destruct w|]; split; [reflexivity|intros k []].
  - unfold bind, logging.
    destruct (IH (emit (ELog WARNING (" - " ++ col)) w)) as (logs & E & S & I).
    exists (logs ++ [ELog WARNING (" - " ++ col)])%list.
    rewrite E; cbn [emit stored session events].
    split; [now rewrite <- app_assoc|]; split.
    + now rewrite statements_app, S.
    + intros k [<- | Hk]; apply in_or_app; [right; now left|left; auto].
Qed.

Lemma report_spec (u : list string) (w : world catalog) :
  exists logs,
    report u w
    = (Return tt, {| stored := stored w; session := session w;
                     events := (logs ++ events w)%list |})
    /\ statements logs = []
    /\ forall k, In k u -> In (ELog WARNING (" - " ++ k)) logs.
Proof.
  destruct u as [|col u]; cbn [report].
  - eexists [_]; split; [reflexivity|]; split; [reflexivity|intros k []].
  - unfold bind at 1, logging at 1.
    destruct (warn_each_spec (col :: u) (emit (ELog WARNING unmapped_header) w))
      as (logs & E & S & I).
    exists (logs ++ [ELog WARNING unmapped_header])%list.
    rewrite E; cbn [emit stored session events].
    split; [now rewrite <- app_assoc|]; split.
    + now rewrite statements_app, S.
    + intros k Hk; apply in_or_app; left; auto.
Qed.

(** C1.  Every statement of an invocation runs inside the one
    transaction opened by [conn.begin()].  When a step of the
    transaction (the DESCRIBE or one of the renames) raises [e], the
    call logs the error, rolls the transaction back and raises the
    same [e], and the stored catalog is the one the call found,
    whatever renames had already run.  When all steps return, the
    working catalog is committed as a whole. *)
Theorem rename_db_columns_rolls_back
    (db_path table_name language : string) (w w1 w3 : world catalog)
    (column_mapping : dict string) (r : result (list string)) :
  path_exists h db_path = true ->
  load_json h language w = (Return column_mapping, w1) ->
  connect_failure h = None ->
  transaction_steps run_stmt unidecode table_name column_mapping
                    (opened h db_path w1) = (r, w3) ->
  exists body c,
    events w3 = (body ++ EBegin :: EConnect db_path :: events w1)%list
    /\ Forall is_step body
    /\ stored w3 = stored w
    /\ session w3 = Some c
    /\ match r with
       | Raise e =>
           rename_db_columns run_stmt unidecode h db_path table_name language w
           = (Raise e,
              {| stored := stored w; session := None;
                 events := ERollback :: ELog ERROR (renaming_failed e)
                             :: events w3 |})
       | Return _ =>
           exists logs,
           rename_db_columns run_stmt unidecode h db_path table_name language w
           = (Return tt,
              {| stored := c; session := None;
                 events := (logs ++ EClose :: ECommit :: events w3)%list |})
           /\ statements logs = []
       end.
Proof.
  intros P L C T.
  destruct (opened_eq db_path w1 C) as [Ec Eo].
  destruct (load_json_frame _ _ _ _ L) as [S1 _].
  assert (St : stepped (opened h db_path w1) w3).
  { eapply transaction_steps_stepped; [|exact T]; rewrite Eo; reflexivity. }
  destruct St as (S3 & (c3 & C3) & body & E3 & F3).
  rewrite Eo in S3, E3; cbn [stored events] in S3, E3.
  exists body, c3.
  split; [exact E3|]; split; [exact F3|]; split; [congruence|];
    split; [exact C3|].
  unfold TransformColumns.rename_db_columns.
  rewrite P, L, Ec; cbn [negb].
  rewrite renaming_unfold.
  unfold opened in T; rewrite Ec in T; cbn [snd] in T; rewrite T.
  destruct r as [u|e].
  - unfold bind, commit, close; rewrite C3; cbn [stored session events].
    destruct (report_spec u {| stored := c3; session := None;
                               events := EClose :: ECommit :: events w3 |})
      as (logs & E & Z & _).
    exists logs; rewrite E; split; [reflexivity|exact Z].
  - unfold bind, logging, rollback, raise, emit; cbn [session stored events].
    rewrite C3; cbn [stored events]; now rewrite S3, S1.
Qed.

(** C5.  An entry of the mapping whose accent-free key is the
    accent-free form of no described column does not stop the call:
    if the renaming goes through on the mapping without the entry, the
    call with the entry returns without raising after committing the
    same catalog with the same statements (none for the entry), and
    logs the entry's name in a warning. *)
Theorem unmapped_entry_is_reported
    (db_path table_name language : string) (w w1 w0 : world catalog)
    (m1 m2 : dict string) (k v : string) :
  path_exists h db_path = true ->
  connect_failure h = None ->
  load_json h language w = (Return (m1 ++ (k, v) :: m2)%list, w1) ->
  (forall described c,
      run_stmt (DESCRIBE table_name) (stored w) = (Return described, c) ->
      ~ In (unidecode k) (map unidecode described)) ->
  renaming run_stmt unidecode table_name (m1 ++ m2)%list
           (snd (connect h db_path w1)) = (Return tt, w0) ->
  exists w' new,
    rename_db_columns run_stmt unidecode h db_path table_name language w
      = (Return tt, w')
    /\ stored w' = stored w0
    /\ session w' = None
    /\ statements (events w') = statements (events w0)
    /\ events w' = (new ++ events w1)%list
    /\ In ECommit new
    /\ In (ELog WARNING (" - " ++ k)) new.
Proof.
  intros P C L N R.
  destruct (opened_eq db_path w1 C) as [Ec Eo].
  destruct (load_json_frame _ _ _ _ L) as [S1 _].
  unfold TransformColumns.rename_db_columns; rewrite P, L, Ec; cbn [negb].
  rewrite Ec in R; cbn [snd] in R.
  rewrite renaming_unfold in R |- *.
  unfold opened in Eo; rewrite Ec in Eo; cbn [snd] in Eo; rewrite Eo in R |- *.
  set (wB := {| stored := stored w1; session := Some (stored w1);
                events := EBegin :: EConnect db_path :: events w1 |}) in *.
  destruct (transaction_steps run_stmt unidecode table_name (m1 ++ m2)%list wB)
    as [[u0|e] wT] eqn:T0; [|discriminate].
  assert (St : stepped wB wT)
    by (eapply transaction_steps_stepped; [|exact T0]; reflexivity).
  destruct St as (ST & (cT & CT) & body & ET & FT).
  (* the run with the entry reaches the same world *)
  assert (T : exists u,
             transaction_steps run_stmt unidecode table_name
                               (m1 ++ (k, v) :: m2)%list wB = (Return u, wT)
             /\ In k u).
  { revert T0; unfold transaction_steps, bind.
    destruct (execute run_stmt (DESCRIBE table_name) wB)
      as [[described|e] wD] eqn:X; [|discriminate].
    destruct (remove_accents run_stmt _ _ wD) as [[[]|e] wA]; [|discriminate].
    apply apply_mapping_skip, str_in_false.
    rewrite existing_values.
    revert X; unfold execute, wB; cbn [session].
    destruct (run_stmt (DESCRIBE table_name) (stored w1)) as [r c] eqn:D.
    intros [= -> _]; rewrite S1 in D; exact (N _ _ D). }
  destruct T as (u & T & Hk); rewrite T.
  revert R; unfold bind, commit, close; rewrite CT.
  cbn [stored session events].
  set (wK := {| stored := cT; session := None;
                events := EClose :: ECommit :: events wT |}).
  destruct (report_spec u0 wK) as (l0 & E0 & Z0 & _).
  destruct (report_spec u wK) as (l & E & Z & I).
  rewrite E0, E; intros [= <-].
  eexists; exists (l ++ EClose :: ECommit :: body ++ [EBegin; EConnect db_path])%list.
  split; [reflexivity|]; cbn [stored session events].
  repeat split.
  - now rewrite !statements_app, Z, Z0.
  - unfold wK; cbn [events]; rewrite ET; unfold wB; cbn [events].
    rewrite <- app_assoc; cbn [app]; do 3 f_equal.
    now rewrite <- app_assoc.
  - apply in_or_app; right; right; now left.
  - apply in_or_app; left; auto.
Qed.

End Facts.

(** *** The statements at work on the reference engine *)

Lemma load_json_failures_witness :
  load_json (Reference.host_with Reference.no_file) "spanish" (Reference.world0 ["uf"])
  = (Raise (ValueError
       "Language not supported. Please choose 'english' or 'portuguese'."),
     Reference.world0 ["uf"])
  /\ fst (load_json (Reference.host_with Reference.no_file) "english" (Reference.world0 ["uf"]))
     = Raise (FileNotFoundError "[Errno 2] No such file or directory").
Proof.
  split.
  - apply (proj1 (load_json_failures (Reference.host_with Reference.no_file) "spanish"
                    (Reference.world0 ["uf"]))); discriminate.
  - rewrite (proj2 (load_json_failures (Reference.host_with Reference.no_file) "english"
                      (Reference.world0 ["uf"]))
                   (or_introl eq_refl) _ (or_introl eq_refl)).
    reflexivity.
Defined.

Lemma rename_db_columns_missing_database_witness :
  rename_db_columns Reference.run_stmt Reference.unidecode
                    (Reference.host_with (Mapping [("uf", "state")]))
                    "elsewhere.db" "sinan" "english" (Reference.world0 ["uf"])
  = (Raise (FileNotFoundError "Database not found at elsewhere.db"),
     {| stored := [("sinan", ["uf"])]; session := None;
        events := [ELog ERROR "Database not found at elsewhere.db"] |}).
Proof.
  apply (rename_db_columns_missing_database Reference.run_stmt Reference.unidecode
           (Reference.host_with (Mapping [("uf", "state")]))
           "elsewhere.db" "sinan" "english" (Reference.world0 ["uf"])).
  reflexivity.
Defined.

Lemma remove_accents_idempotent_witness :
  remove_accents Reference.run_stmt "sinan"
                 (existing_columns_of Reference.unidecode ["area"; "uf"])
                 (opened (Reference.host_with (Mapping [])) "data/db/db.db"
                         (Reference.world0 ["area"; "uf"]))
  = (Return tt,
     opened (Reference.host_with (Mapping [])) "data/db/db.db"
            (Reference.world0 ["area"; "uf"])).
Proof.
  apply (remove_accents_idempotent Reference.run_stmt Reference.unidecode
           "sinan" ["area"; "uf"]).
  repeat constructor.
Defined.

Lemma rename_db_columns_rolls_back_witness :
  Reference.run (Mapping Reference.clash) ["area"; "uf"]
  = (Raise (Error "BinderException" "Column area does not exist"),
     {| stored := [("sinan", ["area"; "uf"])];
        session := None;
        events :=
          [ERollback;
           ELog ERROR
             "Error renaming columns in DuckDB: Column area does not exist";
           EExecute (ALTER_RENAME "sinan" "area" "y");
           EExecute (ALTER_RENAME "sinan" "area" "x");
           EExecute (DESCRIBE "sinan");
           EBegin;
           EConnect "data/db/db.db";
           ELog INFO "Column mapping for 'english' loaded successfully.";
           EOpen "json/columns_translated_english.json"] |}).
Proof.
  destruct (rename_db_columns_rolls_back
              Reference.run_stmt Reference.unidecode
              (Reference.host_with (Mapping Reference.clash))
              "data/db/db.db" "sinan" "english"
              (Reference.world0 ["area"; "uf"])
              (snd (load_json (Reference.host_with (Mapping Reference.clash)) "english"
                              (Reference.world0 ["area"; "uf"])))
              (snd (transaction_steps Reference.run_stmt Reference.unidecode
                      "sinan" Reference.clash
                      (opened (Reference.host_with (Mapping Reference.clash)) "data/db/db.db"
                         (snd (load_json (Reference.host_with (Mapping Reference.clash))
                                 "english" (Reference.world0 ["area"; "uf"]))))))
              Reference.clash
              (Raise (Error "BinderException" "Column area does not exist"))
              eq_refl eq_refl eq_refl eq_refl)
    as (body & c & _ & _ & _ & _ & E).
  unfold Reference.run; rewrite E; reflexivity.
Defined.

(** "idade" is no column of the table. *)
Lemma unmapped_entry_is_reported_witness :
  fst (Reference.run (Mapping [("area", "area_km2"); ("idade", "age")])
                     [Reference.area; "uf"])
  = Return tt.
Proof.
  destruct (unmapped_entry_is_reported
              Reference.run_stmt Reference.unidecode
              (Reference.host_with
                 (Mapping [("area", "area_km2"); ("idade", "age")]))
              "data/db/db.db" "sinan" "english"
              (Reference.world0 [Reference.area; "uf"])
              (snd (load_json
                      (Reference.host_with
                         (Mapping [("area", "area_km2"); ("idade", "age")]))
                      "english" (Reference.world0 [Reference.area; "uf"])))
              (snd (renaming Reference.run_stmt Reference.unidecode "sinan"
                      [("area", "area_km2")]
                      (snd (connect
                              (Reference.host_with
                                 (Mapping [("area", "area_km2"); ("idade", "age")]))
                              "data/db/db.db"
                              (snd (load_json
                                      (Reference.host_with
                                         (Mapping [("area", "area_km2");
                                                   ("idade", "age")]))
                                      "english"
                                      (Reference.world0 [Reference.area; "uf"])))))))
              [("area", "area_km2")] [] "idade" "age"
              eq_refl eq_refl eq_refl)
    as (w' & new & E & _).
  - intros described c D; vm_compute in D.
    injection D as <- _; cbn; intuition discriminate.
  - reflexivity.
  - unfold Reference.run; now rewrite E.
Defined.

End RenameColumns.

(** ** [get_years]: which fragment counts, and repeated years *)

Module GetYearsMore.
Import GetInfo GetYearsList.

Lemma contains_BR_cons (a : ascii) (s : string) (e1 e2 : ascii) :
  contains_BR s e1 e2 -> contains_BR (String a s) e1 e2.
Proof.
  intros (pre & post & -> & H1 & H2); exists (String a pre), post; auto.
Qed.

Lemma letter_B_no_digit : is_digit "B" = false.
Proof. reflexivity. Qed.

(** A match that starts before a fragment lies wholly before it. *)
Lemma match_before_fragment (a : ascii) (pre post : string) (d1 d2 e1 e2 : ascii) :
  match_BR_here
    (String a (pre ++ String "B" (String "R" (String d1 (String d2 post)))))
  = Some (e1, e2) ->
  contains_BR (String a pre) e1 e2.
Proof.
  intros M; apply match_BR_here_Some in M; destruct M as (post' & E & H1 & H2).
  destruct pre as [|x [|y [|z rest]]]; cbn in E.
  - discriminate E.
  - injection E as -> -> <- _; rewrite letter_B_no_digit in H1; discriminate.
  - injection E as -> -> <- <- _; rewrite letter_B_no_digit in H2; discriminate.
  - injection E as -> -> <- <- _; exists "", rest; auto.
Qed.

(** X1.  The year of a file is that of its first fragment: when nothing
    before an occurrence of "BR" and two digits is itself such a
    fragment, the year is the number those two digits write plus 2000,
    whatever follows. *)
Theorem year_of_first_fragment (pre post : string) (d1 d2 : ascii) :
  is_digit d1 = true -> is_digit d2 = true ->
  (forall e1 e2, ~ contains_BR pre e1 e2) ->
  year_of_file (pre ++ String "B" (String "R" (String d1 (String d2 post))))
  = Some (10 * digit_value d1 + digit_value d2 + 2000)%Z.
Proof.
  intros H1 H2 N; unfold year_of_file.
  assert (E : re_search_BR
                (pre ++ String "B" (String "R" (String d1 (String d2 post))))
              = Some (d1, d2)).
  { induction pre as [|a pre IH]; cbn [append re_search_BR].
    - now rewrite (match_BR_here_fragment _ _ post H1 H2).
    - destruct (match_BR_here _) as [[e1 e2]|] eqn:M.
      + destruct (N e1 e2); eapply match_before_fragment; exact M.
      + apply IH; intros e1 e2 C; apply (N e1 e2), contains_BR_cons, C. }
  now rewrite E.
Qed.

Lemma year_of_first_fragment_witness :
  year_of_file "BR_CHIKBR19_BR07.parquet" = Some 2019%Z.
Proof.
  apply (year_of_first_fragment "BR_CHIK" "_BR07.parquet" "1" "9");
    [reflexivity|reflexivity|].
  intros e1 e2 (pre & post & E & D1 & D2).
  destruct pre as [|c0 [|c1 [|c2 [|c3 [|c4 [|c5 [|c6 [|c7 pre]]]]]]]];
    cbn in E; try discriminate E.
  injection E as <- _; discriminate D1.
Defined.

Lemma years_of_files_count (files : list string) (y : Z) :
  count_occ Z.eq_dec (years_of_files files) y
  = length (filter (fun file => match year_of_file file with
                                | Some z => Z.eqb z y
                                | None => false
                                end) files).
Proof.
  induction files as [|f files IH]; cbn; [reflexivity|].
  destruct (year_of_file f) as [z|]; cbn; [|exact IH].
  destruct (Z.eq_dec z y) as [->|D].
  - rewrite Z.eqb_refl; cbn; now rewrite IH.
  - apply Z.eqb_neq in D; now rewrite D.
Qed.

(** X2.  Years are not deduplicated: a year is listed once for every
    file of the index that carries it. *)
Theorem years_keep_repetitions
    (get_files : list string -> list string) (disease : string) (y : Z) :
  count_occ Z.eq_dec (years get_files disease) y
  = length (filter (fun file => match year_of_file file with
                                | Some z => Z.eqb z y
                                | None => false
                                end) (get_files [disease])).
Proof.
  unfold years; rewrite <- years_of_files_count.
  apply Permutation_count_occ; symmetry; apply sorted_perm.
Qed.

End GetYearsMore.

(** ** [get_data_from_table]: what is returned and what is logged *)

Module CleaningMore.
Import GetInfo Tables GetDataFromTable.

Section Facts.

Context {value store files : Type}.
Variable lib : collaborators value store files.

(** [clean] in full: its value, and the process it leaves. *)
Lemma clean_exact (data : DataFrame value) (p : process store) :
  clean data p
  = (Return (cleaned data),
     {| manager_disable := manager_disable p;
        emitted := (emitted p
                    ++ (if (WARNING <=? manager_disable p)%Z then []
                        else cleaning_warnings data))%list;
        outside := outside p |}).
Proof.
  unfold clean, cleaned, cleaning_warnings.
  destruct (_ || _).
  - unfold bind, logging_warning, ret.
    destruct (WARNING <=? manager_disable p)%Z; [|reflexivity].
    rewrite app_nil_r; now destruct p.
  - destruct (is_empty _).
    + unfold bind, logging_warning, ret.
      destruct (WARNING <=? manager_disable p)%Z; [|reflexivity].
      rewrite app_nil_r; now destruct p.
    + unfold ret; destruct (WARNING <=? manager_disable p)%Z;
        rewrite app_nil_r; now destruct p.
Qed.

(** A call that returns has loaded a table and returns it cleaned. *)
Lemma get_data_returns table years disease limit verbose p returned p' :
  get_data_from_table lib table years disease limit verbose p
    = (Return returned, p') ->
  exists data p1,
    load_table lib table years disease limit (on_entry verbose p)
      = (Return data, p1)
    /\ returned = cleaned data
    /\ p' = on_exit verbose (snd (clean data p1)).
Proof.
  rewrite get_data_unfold; unfold bind at 1.
  destruct (load_table _ _ _ _ _ _) as [[data|e] p1]; [|discriminate].
  rewrite clean_exact; intros [= <- <-].
  exists data, p1; rewrite clean_exact; auto.
Qed.

Lemma emitted_on_exit (verbose : bool) (p : process store) :
  emitted (on_exit verbose p) = emitted p.
Proof. now destruct verbose. Qed.

Lemma cleaned_shape (data : DataFrame value) :
  cleaned data = empty_frame
  \/ (columns (cleaned data) <> [] /\ rows (cleaned data) <> []).
Proof.
  unfold cleaned.
  destruct (_ || _) eqn:E1; [now left|].
  destruct (is_empty (dropna _)) eqn:E2; [now left|right].
  unfold is_empty, n_columns in E2.
  apply orb_false_elim in E2; destruct E2 as [C R].
  split; intros Z; rewrite Z in *; discriminate.
Qed.

Lemma cleaned_no_null (data : DataFrame value) : no_null (cleaned data).
Proof.
  unfold no_null; rewrite cleaned_rows.
  destruct (columns _); [constructor|].
  apply Forall_forall; intros r H; apply filter_In in H; tauto.
Qed.

(** X3.  A table that comes back is either [pd.DataFrame()], with no
    column and no row, or has at least one column and one row: the
    columns of an empty result are never kept. *)
Theorem empty_result_is_bare table years disease limit verbose p returned p' :
  get_data_from_table lib table years disease limit verbose p
    = (Return returned, p') ->
  returned = empty_frame
  \/ (columns returned <> [] /\ rows returned <> []).
Proof.
  intros R; destruct (get_data_returns _ _ _ _ _ _ _ _ R) as (data & p1 & _ & -> & _).
  apply cleaned_shape.
Qed.

(** X4.  With [verbose=False], and collaborators that leave the
    manager's level alone, the two "No data available" warnings are
    never emitted: the call emits no record of its own. *)
Theorem quiet_call_emits_nothing table years disease limit p data p1 :
  collaborators_keep_level lib ->
  load_table lib table years disease limit (on_entry false p) = (Return data, p1) ->
  emitted (snd (get_data_from_table lib table years disease limit false p))
  = emitted p1.
Proof.
  intros K L.
  pose proof (keeps_level_load lib table years disease limit K (on_entry false p))
    as Lv.
  rewrite L in Lv; cbn in Lv.
  rewrite get_data_unfold; unfold bind at 1; rewrite L, clean_exact.
  cbn [snd]; rewrite emitted_on_exit; cbn [emitted].
  rewrite Lv; cbn; now rewrite app_nil_r.
Qed.

(** X5.  With [verbose=True] and warnings enabled when the table is
    loaded, an empty result comes with its reason as the last record:
    "All columns are empty or null" when pruning the columns leaves no
    column or no row, "All rows are empty or null after filtering" when
    only dropping the rows with a null empties the table; a non-empty
    result adds no record. *)
Theorem verbose_call_warns table years disease limit p data p1 :
  load_table lib table years disease limit (on_entry true p) = (Return data, p1) ->
  (manager_disable p1 < WARNING)%Z ->
  get_data_from_table lib table years disease limit true p
  = (Return (cleaned data),
     {| manager_disable := manager_disable p1;
        emitted := (emitted p1 ++ cleaning_warnings data)%list;
        outside := outside p1 |})
  /\ (cleaning_warnings data = [] <-> cleaned data <> empty_frame).
Proof.
  intros L Lv; split.
  - rewrite get_data_unfold; unfold bind at 1; rewrite L, clean_exact.
    apply Z.leb_gt in Lv; now rewrite Lv.
  - unfold cleaning_warnings, cleaned.
    destruct (_ || _); [split; [discriminate|congruence]|].
    destruct (is_empty (dropna _)) eqn:E; [split; [discriminate|congruence]|].
    split; [|reflexivity]; intros _ Z; rewrite Z in E; discriminate.
Qed.

(** *** Tables the cleaning leaves alone *)

Lemma select_all {A} (f : nat -> bool) (l : list A) :
  forall s, (forall j, (s <= j < s + length l)%nat -> f j = true) ->
            select (map f (seq s (length l))) l = l.
Proof.
  induction l as [|x l IH]; intros s H; cbn; [reflexivity|].
  rewrite (H s) by (cbn; lia); f_equal.
  apply IH; intros j Hj; apply H; cbn; lia.
Qed.

Lemma select_length {A B} (mask : list bool) (l1 : list A) (l2 : list B) :
  length l1 = length l2 -> length (select mask l1) = length (select mask l2).
Proof.
  revert l1 l2; induction mask as [|b mask IH]; intros [|x l1] [|y l2] E;
    cbn in *; try reflexivity; try discriminate.
  injection E as E; destruct b; cbn; auto.
Qed.

Lemma complete_cell (l : list (option value)) (j : nat) :
  forallb notna l = true -> (j < length l)%nat -> notna (nth j l None) = true.
Proof.
  revert j; induction l as [|c l IH]; intros j F Hj; cbn in *; [lia|].
  apply andb_prop in F; destruct F as [Fc Fl].
  destruct j; [exact Fc|apply IH; [exact Fl|lia]].
Qed.

Lemma filter_all {A} (f : A -> bool) (l : list A) :
  Forall (fun x => f x = true) l -> filter f l = l.
Proof.
  induction 1 as [|x l Hx _ IH]; cbn; [reflexivity|now rewrite Hx, IH].
Qed.

(** A table with a column, a row, one cell per column and no null is
    a fixed point of both [dropna] calls. *)
Lemma full_table_fixed (data : DataFrame value) :
  well_formed data -> no_null data ->
  columns data <> [] -> rows data <> [] ->
  dropna_columns_all data = data /\ dropna data = data /\ cleaned data = data.
Proof.
  intros W N C R.
  assert (Mask : forall j, (0 <= j < 0 + n_columns data)%nat ->
                           column_has_value data j = true).
  { intros j Hj; unfold column_has_value.
    destruct (rows data) as [|r rs] eqn:Er; [congruence|].
    unfold well_formed, no_null in W, N; rewrite Er in W, N.
    inversion W as [|? ? Wr _]; inversion N as [|? ? Nr _]; subst.
    cbn [existsb]; unfold cell.
    rewrite (complete_cell _ j Nr) by lia; reflexivity. }
  assert (E1 : dropna_columns_all data = data).
  { unfold dropna_columns_all, columns_mask.
    unfold n_columns in *; rewrite (select_all _ (columns data) 0 Mask).
    replace (map _ (rows data)) with (rows data); [now destruct data|].
    rewrite <- (map_id (rows data)) at 1.
    apply map_ext_in; intros [i cells] Hin.
    unfold well_formed in W; rewrite Forall_forall in W.
    pose proof (W _ Hin) as Wl; cbn [fst snd] in *.
    unfold n_columns in Wl; rewrite <- Wl.
    rewrite select_all; [reflexivity|].
    intros j Hj; apply Mask; lia. }
  assert (E2 : dropna data = data).
  { unfold dropna; rewrite (filter_all _ _ N); now destruct data. }
  split; [exact E1|]; split; [exact E2|].
  unfold cleaned; rewrite E1, E2.
  unfold is_empty, n_columns.
  destruct (columns data); [congruence|].
  destruct (rows data); [congruence|reflexivity].
Qed.

Lemma pruned_well_formed (data : DataFrame value) :
  well_formed data -> well_formed (dropna_columns_all data).
Proof.
  unfold well_formed, dropna_columns_all, n_columns; cbn [rows columns].
  intros W; apply Forall_forall; intros r Hin.
  apply in_map_iff in Hin; destruct Hin as (r0 & <- & Hin); cbn [snd].
  rewrite Forall_forall in W; apply select_length, (W _ Hin).
Qed.

Lemma cleaned_well_formed (data : DataFrame value) :
  well_formed data -> well_formed (cleaned data).
Proof.
  intros W; unfold cleaned.
  destruct (_ || _); [constructor|].
  destruct (is_empty (dropna _)); [constructor|].
  pose proof (pruned_well_formed data W) as W1.
  unfold well_formed, dropna in *; cbn [rows columns n_columns] in *.
  rewrite Forall_forall in *; intros r Hin; apply filter_In in Hin.
  apply W1; tauto.
Qed.

(** X6.  A loaded table with a column, a row, one cell per column and no
    null comes back as it was loaded, and no record is emitted for it. *)
Theorem full_table_returned_unchanged
    table years disease limit verbose p data p1 :
  well_formed data -> no_null data ->
  columns data <> [] -> rows data <> [] ->
  load_table lib table years disease limit (on_entry verbose p) = (Return data, p1) ->
  get_data_from_table lib table years disease limit verbose p
  = (Return data, on_exit verbose p1).
Proof.
  intros W N C R L.
  destruct (full_table_fixed data W N C R) as (E1 & E2 & E3).
  rewrite get_data_unfold; unfold bind at 1; rewrite L, clean_exact, E3.
  unfold cleaning_warnings; rewrite E1, E2.
  unfold is_empty, n_columns.
  destruct (columns data) eqn:Ec; [congruence|].
  destruct (rows data) eqn:Er; [congruence|]; cbn [length Nat.eqb orb].
  replace (emitted p1 ++ _)%list with (emitted p1)
    by (destruct (_ <=? _)%Z; now rewrite app_nil_r).
  now destruct p1.
Qed.

(** X7.  Cleaning is idempotent on tables with one cell per column:
    cleaning the table that [clean] returned returns it again. *)
Theorem clean_idempotent (data d' : DataFrame value) (p p' q : process store) :
  well_formed data ->
  clean data p = (Return d', p') ->
  fst (clean d' q) = Return d'.
Proof.
  intros W; rewrite !clean_exact; intros [= <- _]; cbn [fst]; f_equal.
  destruct (cleaned_shape data) as [E | [C R]].
  - rewrite E; reflexivity.
  - apply full_table_fixed; auto using cleaned_well_formed, cleaned_no_null.
Qed.

(** X8.  Each of the eight accessors, called with [verbose=False],
    ends with the manager's level at NOTSET, return or raise; the table
    an accessor returns holds no null, and is bare when it is empty. *)
Theorem accessors_reset_and_clean
    (f : list Z -> string -> option Z -> bool -> M store (DataFrame value)) :
  In f (accessors lib) ->
  forall years disease limit p,
    manager_disable (snd (f years disease limit false p)) = NOTSET
    /\ forall verbose returned p',
         f years disease limit verbose p = (Return returned, p') ->
         no_null returned
         /\ (returned = empty_frame
             \/ (columns returned <> [] /\ rows returned <> [])).
Proof.
  intros Hf years disease limit p.
  assert (T : exists table, f = get_data_from_table lib table).
  { unfold accessors in Hf; cbn [In] in Hf.
    repeat (destruct Hf as [<- | Hf]; [eexists; reflexivity|]).
    destruct Hf. }
  destruct T as (table & ->); split.
  - rewrite get_data_unfold; now destruct (bind _ _ _).
  - intros verbose returned p' R.
    destruct (get_data_returns _ _ _ _ _ _ _ _ R) as (data & p1 & _ & -> & _).
    split; [apply cleaned_no_null|apply cleaned_shape].
Qed.

End Facts.

(** *** The statements on the reference tables *)

Lemma empty_result_is_bare_witness :
  get_data_from_table (quiet_lib hollow) "exams" [2022%Z] "CHIK" None false process0
  = (Return empty_frame, process0)
  /\ (@empty_frame Z = empty_frame
      \/ (columns (@empty_frame Z) <> [] /\ rows (@empty_frame Z) <> [])).
Proof.
  assert (R : get_data_from_table (quiet_lib hollow) "exams" [2022%Z] "CHIK"
                                  None false process0
              = (Return empty_frame, process0)) by reflexivity.
  split; [exact R|].
  exact (empty_result_is_bare (quiet_lib hollow) "exams" [2022%Z] "CHIK" None
           false process0 empty_frame process0 R).
Defined.

Lemma quiet_call_emits_nothing_witness :
  emitted (snd (get_data_from_table (quiet_lib hollow) "exams" [2022%Z] "CHIK"
                                    None false process0))
  = emitted (on_entry false process0).
Proof.
  apply (quiet_call_emits_nothing (quiet_lib hollow) "exams" [2022%Z] "CHIK" None
           process0 hollow (on_entry false process0)).
  - repeat split.
  - reflexivity.
Defined.

Lemma verbose_call_warns_witness :
  get_data_from_table (quiet_lib hollow) "exams" [2022%Z] "CHIK" None true process0
  = (Return empty_frame,
     {| manager_disable := NOTSET;
        emitted := [(WARNING, "No data available: All columns are empty or null.")];
        outside := tt |}).
Proof.
  refine (eq_trans
            (proj1 (verbose_call_warns (quiet_lib hollow) "exams" [2022%Z] "CHIK"
                      None process0 hollow process0 eq_refl _)) _).
  - reflexivity.
  - reflexivity.
Defined.

Lemma full_table_returned_unchanged_witness :
  get_data_from_table (quiet_lib complete) "exams" [2022%Z] "CHIK" None false process0
  = (Return complete, process0).
Proof.
  refine (eq_trans
            (full_table_returned_unchanged (quiet_lib complete) "exams" [2022%Z]
               "CHIK" None false process0 complete
               (on_entry false process0) _ _ _ _ eq_refl) _).
  - repeat constructor.
  - repeat constructor.
  - discriminate.
  - discriminate.
  - reflexivity.
Defined.

Lemma clean_idempotent_witness :
  fst (clean (store := unit)
             {| columns := ["a"; "b"]; rows := [(1%Z, [Some 2%Z; Some 3%Z])] |}
             process0)
  = Return {| columns := ["a"; "b"]; rows := [(1%Z, [Some 2%Z; Some 3%Z])] |}.
Proof.
  apply (clean_idempotent sample _ process0 process0 process0).
  - repeat constructor.
  - reflexivity.
Defined.

Lemma accessors_reset_and_clean_witness :
  manager_disable
    (snd (get_exams (quiet_lib sample) [2022%Z] "CHIK" None false process0))
  = NOTSET.
Proof.
  apply (accessors_reset_and_clean (quiet_lib sample) (get_exams (quiet_lib sample))).
  unfold accessors; cbn [In]; tauto.
Defined.

End CleaningMore.

(** ** [load_json] and [rename_db_columns]: the other outcomes *)

Module RenameMore.
Import TransformColumns RenameColumns.

Section Facts.

Context {catalog : Type}.
Variable run_stmt : stmt -> catalog -> result (list string) * catalog.
Variable unidecode : string -> string.
Variable h : host.

(** The file of a supported language. *)
Lemma json_path_of (language : string) :
  language = "english" \/ language = "portuguese" ->
  dict_contains language (json_paths h) = true
  /\ dict_get language (json_paths h) ""
     = json_dir h ++ "/columns_translated_" ++ language ++ ".json".
Proof. intros [-> | ->]; split; reflexivity. Qed.

(** X9.  For 'english' and 'portuguese' the one file opened is
    [columns_translated_<language>.json] of the JSON directory; when it
    decodes to a mapping, that mapping is returned, after one INFO record,
    and the database is not touched. *)
Theorem load_json_returns_mapping
    (language : string) (w : world catalog) (m : dict string) :
  language = "english" \/ language = "portuguese" ->
  read_mapping h (json_dir h ++ "/columns_translated_" ++ language ++ ".json")
    = Mapping m ->
  load_json h language w
  = (Return m,
     {| stored := stored w; session := session w;
        events :=
          ELog INFO ("Column mapping for '" ++ language ++ "' loaded successfully.")
            :: EOpen (json_dir h ++ "/columns_translated_" ++ language ++ ".json")
            :: events w |}).
Proof.
  intros L R; destruct (json_path_of language L) as [K P].
  unfold load_json; rewrite K, P, R; reflexivity.
Qed.

(** X10.  When the file decodes to a value that [dict] rejects, the
    record "loaded successfully" is already written: the call logs it,
    then the error of the last [except] clause, and raises that error. *)
Theorem load_json_success_logged_before_failure
    (language : string) (w : world catalog) (cls msg : string) :
  language = "english" \/ language = "portuguese" ->
  read_mapping h (json_dir h ++ "/columns_translated_" ++ language ++ ".json")
    = NotADict (Error cls msg) ->
  load_json h language w
  = (Raise (Error cls msg),
     {| stored := stored w; session := session w;
        events :=
          ELog ERROR ("Unexpected error: " ++ msg)
            :: ELog INFO ("Column mapping for '" ++ language
                            ++ "' loaded successfully.")
            :: EOpen (json_dir h ++ "/columns_translated_" ++ language ++ ".json")
            :: events w |}).
Proof.
  intros L R; destruct (json_path_of language L) as [K P].
  unfold load_json; rewrite K, P, R; reflexivity.
Qed.

(** [load_json] opens a file and logs, nothing else. *)
Lemma load_json_events (language : string) (w w1 : world catalog) r :
  load_json h language w = (r, w1) ->
  exists new, events w1 = (new ++ events w)%list /\ Forall is_file_event new.
Proof.
  unfold load_json.
  destruct (negb _); [intros [= _ <-]; now exists []|].
  destruct (read_mapping h _); intros [= _ <-]; cbn.
  - eexists [_; _]; split; [reflexivity|repeat constructor].
  - eexists [_; _]; split; [reflexivity|repeat constructor].
  - eexists [_; _; _]; split; [reflexivity|repeat constructor].
  - eexists [_; _]; split; [reflexivity|repeat constructor].
Qed.

(** X11.  When the mapping cannot be loaded, [rename_db_columns] raises
    what [load_json] raised: no connection is made, no statement runs,
    and all it leaves are the open and log events of [load_json]. *)
Theorem rename_db_columns_load_failure
    (db_path table_name language : string) (w w1 : world catalog) (e : exn) :
  path_exists h db_path = true ->
  load_json h language w = (Raise e, w1) ->
  rename_db_columns run_stmt unidecode h db_path table_name language w
    = (Raise e, w1)
  /\ stored w1 = stored w
  /\ session w1 = session w
  /\ exists new, events w1 = (new ++ events w)%list /\ Forall is_file_event new.
Proof.
  intros P L; split; [|split; [|split]].
  - unfold rename_db_columns; now rewrite P, L.
  - apply (load_json_frame h _ _ _ _ L).
  - apply (load_json_frame h _ _ _ _ L).
  - apply (load_json_events _ _ _ _ L).
Qed.

(** X12.  When [duckdb.connect] raises, [conn] was never bound: the
    handler logs the error and then fails on [if conn:], so the caller
    gets an [UnboundLocalError] in place of the error of the connection;
    there is no rollback and the database is as it was. *)
Theorem rename_db_columns_connect_failure
    (db_path table_name language : string) (w w1 : world catalog)
    (column_mapping : dict string) (e : exn) :
  path_exists h db_path = true ->
  load_json h language w = (Return column_mapping, w1) ->
  connect_failure h = Some e ->
  rename_db_columns run_stmt unidecode h db_path table_name language w
  = (Raise (UnboundLocalError
       "cannot access local variable 'conn' where it is not associated with a value"),
     {| stored := stored w; session := session w;
        events := ELog ERROR ("Error renaming columns in DuckDB: " ++ str_exn e)
                    :: EConnect db_path :: events w1 |}).
Proof.
  intros P L C; destruct (load_json_frame h _ _ _ _ L) as [S1 S2].
  unfold rename_db_columns; rewrite P, L; cbn [negb].
  unfold connect; rewrite C.
  unfold bind, logging, raise, emit; cbn; now rewrite S1, S2.
Qed.

(** *** The dictionary of existing columns *)

Lemma dict_set_fresh (k v : string) (d : dict string) :
  ~ In k (map fst d) -> dict_set k v d = (d ++ [(k, v)])%list.
Proof.
  induction d as [|[k' v'] d IH]; cbn; [reflexivity|].
  intros N; destruct (String.eqb_spec k k') as [->|D].
  - destruct N; now left.
  - now rewrite IH by tauto.
Qed.

Lemma dict_set_NoDup (k : string) (d : dict string) :
  NoDup (map fst d) -> NoDup (map fst (dict_set k (unidecode k) d)).
Proof.
  induction d as [|[k' v'] d IH]; cbn.
  - intros _; repeat constructor; intros [].
  - intros N; inversion N as [|? ? Hn Hd]; subst.
    destruct (String.eqb_spec k k') as [->|D]; cbn.
    + now constructor.
    + constructor; [|auto].
      rewrite dict_set_keys; intros [<- | I]; [congruence|contradiction].
Qed.

Lemma existing_columns_fold_NoDup (described : list string) :
  forall d, NoDup (map fst d) ->
            NoDup (map fst (fold_left (fun d col => dict_set col (unidecode col) d)
                                      described d)).
Proof.
  induction described as [|col l IH]; intros d N; cbn; [exact N|].
  apply IH, dict_set_NoDup, N.
Qed.

Lemma existing_columns_fold_distinct (described : list string) :
  forall d, NoDup (map fst d ++ described)%list ->
            fold_left (fun d col => dict_set col (unidecode col) d) described d
            = (d ++ map (fun col => (col, unidecode col)) described)%list.
Proof.
  induction described as [|col l IH]; intros d N; cbn.
  - now rewrite app_nil_r.
  - assert (F : ~ In col (map fst d)).
    { intros I; apply NoDup_remove_2 in N; apply N, in_or_app; now left. }
    rewrite (dict_set_fresh _ _ _ F), IH.
    + now rewrite <- app_assoc.
    + rewrite map_app; cbn [map fst]; rewrite <- app_assoc; exact N.
Qed.

(** X13.  The dictionary built from the rows of [DESCRIBE] never holds a
    key twice; for column names that are pairwise distinct, as a table's
    are, it lists every column once, in the order described, with its
    transliteration. *)
Theorem existing_columns_of_distinct (described : list string) :
  NoDup (map fst (existing_columns_of unidecode described))
  /\ (NoDup described ->
      existing_columns_of unidecode described
      = map (fun col => (col, unidecode col)) described).
Proof.
  split.
  - apply existing_columns_fold_NoDup; constructor.
  - intros N; unfold existing_columns_of.
    now rewrite existing_columns_fold_distinct.
Qed.

(** *** A whole run *)

Lemma warn_each_exact (u : list string) :
  forall w : world catalog,
    warn_each u w
    = (Return tt,
       {| stored := stored w; session := session w;
          events := (rev (map (fun col => ELog WARNING (" - " ++ col)) u)
                     ++ events w)%list |}).
Proof.
  induction u as [|col u IH]; intros w; cbn [warn_each map rev].
  - now destruct w.
  - unfold bind, logging; rewrite IH; cbn [emit stored session events].
    now rewrite <- app_assoc.
Qed.

Lemma report_exact (u : list string) (w : world catalog) :
  report u w
  = (Return tt,
     {| stored := stored w; session := session w;
        events := (report_events u ++ events w)%list |}).
Proof.
  destruct u as [|col u]; [reflexivity|].
  unfold report, report_events, bind at 1, logging at 1.
  rewrite warn_each_exact; cbn [emit stored session events].
  now rewrite <- app_assoc.
Qed.

Lemma statements_logs (l : list event) :
  Forall (fun ev => match ev with EExecute _ => False | _ => True end) l ->
  statements l = [].
Proof.
  induction 1 as [|ev l Hev _ IH]; [reflexivity|].
  destruct ev; cbn; try exact IH; destruct Hev.
Qed.

Lemma statements_report (u : list string) : statements (report_events u) = [].
Proof.
  apply statements_logs; destruct u as [|col u]; [repeat constructor|].
  unfold report_events; apply Forall_app; split; [|repeat constructor].
  apply Forall_rev, Forall_map, Forall_forall; intros; exact I.
Qed.

Lemma statements_file_events (l : list event) :
  Forall is_file_event l -> statements l = [].
Proof.
  intros F; apply statements_logs; revert F; apply Forall_impl.
  intros [] H; cbn in *; tauto.
Qed.

(** Once connected, a run ends in one of two ways. *)
Lemma rename_after_connect
    (db_path table_name language : string) (w w1 w3 : world catalog)
    (m : dict string) (r3 : result (list string)) :
  path_exists h db_path = true ->
  load_json h language w = (Return m, w1) ->
  connect_failure h = None ->
  transaction_steps run_stmt unidecode table_name m (opened h db_path w1)
    = (r3, w3) ->
  exists c body,
    session w3 = Some c
    /\ events w3 = (body ++ EBegin :: EConnect db_path :: events w1)%list
    /\ Forall is_step body
    /\ rename_db_columns run_stmt unidecode h db_path table_name language w
       = match r3 with
         | Return u =>
             (Return tt,
              {| stored := c; session := None;
                 events := (report_events u ++ EClose :: ECommit :: events w3)%list |})
         | Raise e =>
             (Raise e,
              {| stored := stored w; session := None;
                 events := ERollback :: ELog ERROR (renaming_failed e)
                             :: events w3 |})
         end.
Proof.
  intros P L C T.
  destruct (opened_eq h db_path w1 C) as [Ec Eo].
  destruct (load_json_frame h _ _ _ _ L) as [S1 _].
  assert (St : stepped (opened h db_path w1) w3).
  { eapply transaction_steps_stepped; [|exact T]; rewrite Eo; reflexivity. }
  destruct St as (S3 & (c3 & C3) & body & E3 & F3).
  rewrite Eo in S3, E3; cbn [stored events] in S3, E3.
  exists c3, body; split; [exact C3|]; split; [exact E3|]; split; [exact F3|].
  unfold rename_db_columns; rewrite P, L, Ec; cbn [negb].
  rewrite renaming_unfold.
  unfold opened in T; rewrite Ec in T; cbn [snd] in T; rewrite T.
  destruct r3 as [u|e].
  - unfold bind, commit, close; rewrite C3; cbn [stored session events].
    now rewrite report_exact.
  - unfold bind, logging, rollback, raise, emit; cbn [session stored events].
    rewrite C3; cbn [stored events]; now rewrite S3, S1.
Qed.

Lemma step_is_no_end (l : list event) :
  Forall is_step l -> ~ In ECommit l /\ ~ In ERollback l.
Proof.
  intros F; rewrite Forall_forall in F.
  split; intros I; exact (F _ I).
Qed.

Lemma file_event_is_no_end (l : list event) :
  Forall is_file_event l -> ~ In ECommit l /\ ~ In ERollback l.
Proof.
  intros F; rewrite Forall_forall in F.
  split; intros I; exact (F _ I).
Qed.

Lemma report_is_no_end (u : list string) : ~ In ERollback (report_events u).
Proof.
  destruct u as [|col u]; [intros [H|[]]; discriminate H|].
  unfold report_events; intros I; apply in_app_or in I.
  destruct I as [I|[I|[]]]; [|discriminate I].
  apply in_rev, in_map_iff in I; destruct I as (x & Hx & _); discriminate Hx.
Qed.

(** X14.  Whatever happens, a call that raises leaves the stored catalog
    as it found it and commits nothing; a call that returns has committed,
    has not rolled back, and leaves no transaction open. *)
Theorem rename_db_columns_commits_only_on_return
    (db_path table_name language : string) (w w' : world catalog)
    (r : result unit) :
  rename_db_columns run_stmt unidecode h db_path table_name language w = (r, w') ->
  exists new,
    events w' = (new ++ events w)%list
    /\ match r with
       | Raise _ => stored w' = stored w /\ ~ In ECommit new
       | Return _ =>
           session w' = None /\ In ECommit new /\ ~ In ERollback new
       end.
Proof.
  destruct (path_exists h db_path) eqn:P.
  2:{ unfold rename_db_columns; rewrite P; cbn; intros [= <- <-].
      eexists [_]; split; [reflexivity|]; split; [reflexivity|].
      intros [H|[]]; discriminate H. }
  destruct (load_json h language w) as [[m|e] w1] eqn:L.
  2:{ destruct (load_json_events _ _ _ _ L) as (new & Ev & F).
      unfold rename_db_columns; rewrite P, L; cbn [negb].
      intros [= <- <-]; exists new; split; [exact Ev|].
      split; [apply (load_json_frame h _ _ _ _ L)|].
      apply (file_event_is_no_end _ F). }
  destruct (load_json_frame h _ _ _ _ L) as [S1 _].
  destruct (load_json_events _ _ _ _ L) as (lnew & Lev & LF).
  destruct (file_event_is_no_end _ LF) as [LC LR].
  destruct (connect_failure h) as [e|] eqn:C.
  { unfold rename_db_columns; rewrite P, L; cbn [negb].
    unfold connect; rewrite C.
    unfold bind, logging, raise, emit; cbn [stored session events].
    intros [= <- <-]; cbn [stored events].
    exists (ELog ERROR (renaming_failed e) :: EConnect db_path :: lnew); rewrite Lev.
    split; [reflexivity|]; split; [exact S1|].
    intros [H|[H|H]]; [discriminate H|discriminate H|exact (LC H)]. }
  destruct (transaction_steps run_stmt unidecode table_name m (opened h db_path w1))
    as [r3 w3] eqn:T.
  destruct (rename_after_connect db_path table_name language w w1 w3 m r3 P L C T)
    as (c & body & S3 & E3 & F3 & E).
  destruct (step_is_no_end _ F3) as [BC BR].
  rewrite E; destruct r3 as [u|e]; intros [= <- <-]; cbn [stored session events].
  - exists (report_events u ++ EClose :: ECommit :: body
              ++ EBegin :: EConnect db_path :: lnew)%list.
    rewrite E3, Lev; split.
    { rewrite <- !app_assoc; cbn [app]; do 3 f_equal.
      now rewrite <- app_assoc. }
    split; [reflexivity|]; split.
    + apply in_or_app; right; right; now left.
    + intros I; apply in_app_or in I; destruct I as [I|I];
        [exact (report_is_no_end _ I)|].
      destruct I as [I|[I|I]]; [discriminate I|discriminate I|].
      apply in_app_or in I; destruct I as [I|[I|[I|I]]];
        [exact (BR I)|discriminate I|discriminate I|exact (LR I)].
  - exists (ERollback :: ELog ERROR (renaming_failed e) :: body
              ++ EBegin :: EConnect db_path :: lnew)%list.
    rewrite E3, Lev; split.
    { cbn [app]; do 2 f_equal; now rewrite <- app_assoc. }
    split; [reflexivity|].
    intros [I|[I|I]]; [discriminate I|discriminate I|].
    apply in_app_or in I; destruct I as [I|[I|[I|I]]];
      [exact (BC I)|discriminate I|discriminate I|exact (LC I)].
Qed.

(** *** The statements of a run *)

Lemma execute_events (s : stmt) (w w1 : world catalog) r :
  execute run_stmt s w = (r, w1) -> events w1 = EExecute s :: events w.
Proof.
  unfold execute; destruct (session w) as [c|];
    destruct (run_stmt s _) as [r0 c']; now intros [= _ <-].
Qed.

Lemma remove_accents_plan (table_name : string) (items : dict string) :
  forall (w w' : world catalog) r,
    remove_accents run_stmt table_name items w = (r, w') ->
    exists done rest,
      accent_renames table_name items = (done ++ rest)%list
      /\ statements (events w') = (rev done ++ statements (events w))%list
      /\ (r = Return tt -> rest = []).
Proof.
  induction items as [|[col n] items IH]; intros w w' r;
    cbn [remove_accents].
  - intros [= <- <-]; exists [], []; auto.
  - unfold accent_renames; cbn [filter fst snd].
    destruct (negb (String.eqb col n)); [|apply IH].
    cbn [map]; fold (accent_renames table_name items).
    unfold bind at 1.
    destruct (execute run_stmt _ w) as [[rows|e] w1] eqn:X;
      pose proof (execute_events _ _ _ _ X) as Ev.
    + unfold bind at 1, logging at 1; intros R.
      destruct (IH _ _ _ R) as (done & rest & Ep & Es & Er).
      exists (ALTER_RENAME table_name col n :: done), rest.
      split; [cbn; now rewrite Ep|]; split; [|exact Er].
      rewrite Es; cbn [emit events statements]; rewrite Ev; cbn [statements rev].
      now rewrite <- app_assoc.
    + intros [= <- <-].
      exists [ALTER_RENAME table_name col n], (accent_renames table_name items).
      split; [reflexivity|]; split; [now rewrite Ev|discriminate].
Qed.

Lemma mapping_renames_cons (table_name : string) (ex items : dict string)
    (old new : string) :
  mapping_renames unidecode table_name ex ((old, new) :: items)
  = if str_in (unidecode old) (dict_values ex)
    then ALTER_RENAME table_name (unidecode old) new
           :: mapping_renames unidecode table_name ex items
    else mapping_renames unidecode table_name ex items.
Proof.
  unfold mapping_renames; cbn [filter]; unfold is_mapped at 1; cbn [fst snd].
  now destruct (str_in _ _).
Qed.

Lemma unmapped_keys_cons (ex items : dict string) (old new : string) :
  unmapped_keys unidecode ex ((old, new) :: items)
  = if str_in (unidecode old) (dict_values ex)
    then unmapped_keys unidecode ex items
    else old :: unmapped_keys unidecode ex items.
Proof.
  unfold unmapped_keys; cbn [filter]; unfold is_mapped at 1; cbn [fst snd].
  now destruct (str_in _ _).
Qed.

Lemma apply_mapping_plan (table_name : string) (ex items : dict string) :
  forall acc (w w' : world catalog) r,
    apply_mapping run_stmt unidecode table_name ex items acc w = (r, w') ->
    exists done rest,
      mapping_renames unidecode table_name ex items = (done ++ rest)%list
      /\ statements (events w') = (rev done ++ statements (events w))%list
      /\ forall u, r = Return u ->
           rest = [] /\ u = (acc ++ unmapped_keys unidecode ex items)%list.
Proof.
  induction items as [|[old new] items IH]; intros acc w w' r;
    cbn [apply_mapping].
  - intros [= <- <-]; exists [], []; split; [reflexivity|]; split; [reflexivity|].
    intros u [= <-]; cbn; now rewrite app_nil_r.
  - rewrite mapping_renames_cons, unmapped_keys_cons.
    destruct (str_in (unidecode old) (dict_values ex)).
    + unfold bind at 1.
      destruct (execute run_stmt _ w) as [[rows|e] w1] eqn:X;
        pose proof (execute_events _ _ _ _ X) as Ev.
      * intros R; destruct (IH _ _ _ _ R) as (done & rest & Ep & Es & Er).
        exists (ALTER_RENAME table_name (unidecode old) new :: done), rest.
        split; [cbn; now rewrite Ep|]; split; [|exact Er].
        rewrite Es, Ev; cbn [statements rev]; now rewrite <- app_assoc.
      * intros [= <- <-].
        exists [ALTER_RENAME table_name (unidecode old) new],
               (mapping_renames unidecode table_name ex items).
        split; [reflexivity|]; split; [now rewrite Ev|discriminate].
    + intros R; destruct (IH _ _ _ _ R) as (done & rest & Ep & Es & Er).
      exists done, rest; split; [exact Ep|]; split; [exact Es|].
      intros u Hu; destruct (Er u Hu) as [-> ->]; split; [reflexivity|].
      now rewrite <- app_assoc.
Qed.

(** The statements of a transaction whose DESCRIBE returns. *)
Lemma transaction_steps_plan (table_name : string) (m : dict string)
    (w wD w' : world catalog) (described : list string) r :
  execute run_stmt (DESCRIBE table_name) w = (Return described, wD) ->
  transaction_steps run_stmt unidecode table_name m w = (r, w') ->
  exists done rest,
    planned unidecode table_name described m = (DESCRIBE table_name :: done ++ rest)%list
    /\ statements (events w')
       = (rev (DESCRIBE table_name :: done) ++ statements (events w))%list
    /\ forall u, r = Return u ->
         rest = []
         /\ u = unmapped_keys unidecode (existing_columns_of unidecode described) m.
Proof.
  intros D; unfold transaction_steps, bind at 1; rewrite D.
  pose proof (execute_events _ _ _ _ D) as Ev.
  unfold bind at 1.
  destruct (remove_accents run_stmt _ _ wD) as [[[]|e] wA] eqn:A.
  - destruct (remove_accents_plan _ _ _ _ _ A) as (d1 & r1 & Ep1 & Es1 & Er1).
    rewrite (Er1 eq_refl), app_nil_r in Ep1.
    intros R; destruct (apply_mapping_plan _ _ _ _ _ _ _ R)
      as (d2 & r2 & Ep2 & Es2 & Er2).
    exists (d1 ++ d2)%list, r2; split; [|split].
    + unfold planned; rewrite Ep1, Ep2; now rewrite <- app_assoc.
    + rewrite Es2, Es1, Ev; cbn [statements rev].
      rewrite rev_app_distr, <- !app_assoc; reflexivity.
    + intros u Hu; exact (Er2 u Hu).
  - intros [= <- <-].
    destruct (remove_accents_plan _ _ _ _ _ A) as (d1 & r1 & Ep1 & Es1 & _).
    exists d1, (r1 ++ mapping_renames unidecode table_name
                        (existing_columns_of unidecode described) m)%list.
    split; [|split; [|discriminate]].
    + unfold planned; rewrite Ep1; now rewrite <- app_assoc.
    + rewrite Es1, Ev; cbn [statements rev]; now rewrite <- app_assoc.
Qed.

(** X15.  The statements of a call are those of its plan, in order: the
    DESCRIBE, one rename for every described column that differs from its
    transliteration, then one rename for every entry of the mapping
    whose accent-free key is the transliteration of a described column.
    A call that returns has run them all; a call that raises after the
    DESCRIBE has run a beginning of the plan, up to the one that failed. *)
Theorem rename_db_columns_follows_plan
    (db_path table_name language : string) (w w1 wD w' : world catalog)
    (m : dict string) (described : list string) (r : result unit) :
  path_exists h db_path = true ->
  load_json h language w = (Return m, w1) ->
  connect_failure h = None ->
  execute run_stmt (DESCRIBE table_name) (opened h db_path w1)
    = (Return described, wD) ->
  rename_db_columns run_stmt unidecode h db_path table_name language w = (r, w') ->
  exists done rest,
    planned unidecode table_name described m
      = (DESCRIBE table_name :: done ++ rest)%list
    /\ statements (events w')
       = (rev (DESCRIBE table_name :: done) ++ statements (events w))%list
    /\ (r = Return tt -> rest = []).
Proof.
  intros P L C D.
  destruct (transaction_steps run_stmt unidecode table_name m (opened h db_path w1))
    as [r3 w3] eqn:T.
  destruct (rename_after_connect db_path table_name language w w1 w3 m r3 P L C T)
    as (c & body & _ & _ & _ & E).
  destruct (transaction_steps_plan _ _ _ _ _ _ _ D T) as (done & rest & Ep & Es & Er).
  destruct (load_json_events _ _ _ _ L) as (lnew & Lev & LF).
  assert (S0 : statements (events (opened h db_path w1)) = statements (events w)).
  { destruct (opened_eq h db_path w1 C) as [_ ->]; cbn [events statements].
    now rewrite Lev, statements_app, (statements_file_events _ LF). }
  rewrite S0 in Es.
  rewrite E; intros H; exists done, rest; split; [exact Ep|].
  destruct r3 as [u|e]; injection H as <- <-; cbn [events].
  - split; [|intros _; exact (proj1 (Er u eq_refl))].
    now rewrite statements_app, statements_report.
  - split; [exact Es|discriminate].
Qed.

(** X16.  A call that returns ends its log, after the commit and the
    close, with the report of the keys left unmapped: a header and one
    warning per key of the mapping whose accent-free form is the
    transliteration of no described column, in the order of the mapping;
    or the single record "All columns renamed successfully." when there
    is none. *)
Theorem rename_db_columns_reports_unmapped
    (db_path table_name language : string) (w w1 wD w' : world catalog)
    (m : dict string) (described : list string) :
  path_exists h db_path = true ->
  load_json h language w = (Return m, w1) ->
  connect_failure h = None ->
  execute run_stmt (DESCRIBE table_name) (opened h db_path w1)
    = (Return described, wD) ->
  rename_db_columns run_stmt unidecode h db_path table_name language w
    = (Return tt, w') ->
  exists earlier,
    events w'
    = (report_events
         (unmapped_keys unidecode (existing_columns_of unidecode described) m)
       ++ EClose :: ECommit :: earlier)%list
    /\ forall k, In k (unmapped_keys unidecode
                         (existing_columns_of unidecode described) m)
                 <-> (exists v, In (k, v) m)
                     /\ ~ In (unidecode k) (map unidecode described).
Proof.
  intros P L C D.
  destruct (transaction_steps run_stmt unidecode table_name m (opened h db_path w1))
    as [r3 w3] eqn:T.
  destruct (rename_after_connect db_path table_name language w w1 w3 m r3 P L C T)
    as (c & body & _ & _ & _ & E).
  destruct (transaction_steps_plan _ _ _ _ _ _ _ D T) as (done & rest & _ & _ & Er).
  rewrite E; destruct r3 as [u|e]; [|discriminate].
  intros [= <-]; destruct (Er u eq_refl) as [_ ->].
  exists (events w3); split; [reflexivity|].
  intros k; unfold unmapped_keys; rewrite in_map_iff; split.
  - intros ([k' v] & <- & I); apply filter_In in I; destruct I as [I N].
    split; [now exists v|]; cbn [fst].
    unfold is_mapped in N; cbn [fst] in N.
    rewrite <- (existing_values unidecode); intros Hin.
    assert (X : str_in (unidecode k') (dict_values
                  (existing_columns_of unidecode described)) = true).
    { unfold str_in; apply existsb_exists; eexists; split; [exact Hin|].
      apply String.eqb_refl. }
    rewrite X in N; discriminate N.
  - intros ((v & I) & N); exists (k, v); split; [reflexivity|].
    apply filter_In; split; [exact I|].
    unfold is_mapped; cbn [fst].
    rewrite (str_in_false _ _); [reflexivity|].
    now rewrite (existing_values unidecode).
Qed.

End Facts.

(** *** The statements on the reference engine *)

Lemma load_json_returns_mapping_witness :
  fst (load_json (Reference.host_with (Mapping Reference.partial)) "portuguese"
                 (Reference.world0 ["uf"]))
  = Return Reference.partial.
Proof.
  rewrite (load_json_returns_mapping
             (Reference.host_with (Mapping Reference.partial)) "portuguese"
             (Reference.world0 ["uf"]) Reference.partial
             (or_intror eq_refl) eq_refl).
  reflexivity.
Defined.

Lemma load_json_success_logged_before_failure_witness :
  fst (load_json (Reference.host_with Reference.a_list) "english"
                 (Reference.world0 ["uf"]))
  = Raise (Error "TypeError" "cannot convert dictionary update sequence element").
Proof.
  rewrite (load_json_success_logged_before_failure
             (Reference.host_with Reference.a_list) "english"
             (Reference.world0 ["uf"])
             "TypeError" "cannot convert dictionary update sequence element"
             (or_introl eq_refl) eq_refl).
  reflexivity.
Defined.

Lemma rename_db_columns_load_failure_witness :
  fst (Reference.run Reference.no_file ["uf"])
  = Raise (FileNotFoundError "[Errno 2] No such file or directory").
Proof.
  unfold Reference.run.
  rewrite (proj1 (rename_db_columns_load_failure
                    Reference.run_stmt Reference.unidecode
                    (Reference.host_with Reference.no_file)
                    "data/db/db.db" "sinan" "english" (Reference.world0 ["uf"])
                    (snd (load_json (Reference.host_with Reference.no_file)
                                    "english" (Reference.world0 ["uf"])))
                    (FileNotFoundError "[Errno 2] No such file or directory")
                    eq_refl eq_refl)).
  reflexivity.
Defined.

Lemma rename_db_columns_connect_failure_witness :
  fst (rename_db_columns Reference.run_stmt Reference.unidecode
         (Reference.locked_host (Mapping Reference.partial))
         "data/db/db.db" "sinan" "english" (Reference.world0 ["uf"]))
  = Raise (UnboundLocalError
      "cannot access local variable 'conn' where it is not associated with a value").
Proof.
  rewrite (rename_db_columns_connect_failure
             Reference.run_stmt Reference.unidecode
             (Reference.locked_host (Mapping Reference.partial))
             "data/db/db.db" "sinan" "english" (Reference.world0 ["uf"])
             (snd (load_json (Reference.locked_host (Mapping Reference.partial))
                             "english" (Reference.world0 ["uf"])))
             Reference.partial
             (Error "IOException" "Could not set lock on file")
             eq_refl eq_refl eq_refl).
  reflexivity.
Defined.

Lemma existing_columns_of_distinct_witness :
  existing_columns_of Reference.unidecode [Reference.area; "uf"]
  = [(Reference.area, "area"); ("uf", "uf")].
Proof.
  rewrite (proj2 (existing_columns_of_distinct Reference.unidecode
                    [Reference.area; "uf"])).
  - reflexivity.
  - repeat constructor; cbn; intuition discriminate.
Defined.

Lemma rename_db_columns_commits_only_on_return_witness :
  exists new,
    events (snd (Reference.run (Mapping Reference.clash) ["area"; "uf"]))
    = (new ++ events (Reference.world0 ["area"; "uf"]))%list
    /\ stored (snd (Reference.run (Mapping Reference.clash) ["area"; "uf"]))
       = stored (Reference.world0 ["area"; "uf"])
    /\ ~ In ECommit new.
Proof.
  exact (rename_db_columns_commits_only_on_return
           Reference.run_stmt Reference.unidecode
           (Reference.host_with (Mapping Reference.clash))
           "data/db/db.db" "sinan" "english" (Reference.world0 ["area"; "uf"])
           (snd (Reference.run (Mapping Reference.clash) ["area"; "uf"]))
           (Raise (Error "BinderException" "Column area does not exist"))
           eq_refl).
Defined.

Lemma rename_db_columns_follows_plan_witness :
  exists done rest,
    planned Reference.unidecode "sinan" [Reference.area; "uf"] Reference.partial
      = (DESCRIBE "sinan" :: done ++ rest)%list
    /\ statements
         (events (snd (Reference.run (Mapping Reference.partial)
                                     [Reference.area; "uf"])))
       = (rev (DESCRIBE "sinan" :: done)
          ++ statements (events (Reference.world0 [Reference.area; "uf"])))%list
    /\ (Return tt = Return tt -> rest = []).
Proof.
  eapply (rename_db_columns_follows_plan
            Reference.run_stmt Reference.unidecode
            (Reference.host_with (Mapping Reference.partial))
            "data/db/db.db" "sinan" "english"
            (Reference.world0 [Reference.area; "uf"])); vm_compute; reflexivity.
Defined.

Lemma rename_db_columns_reports_unmapped_witness :
  exists earlier,
    events (snd (Reference.run (Mapping Reference.partial) [Reference.area; "uf"]))
    = (report_events
         (unmapped_keys Reference.unidecode
            (existing_columns_of Reference.unidecode [Reference.area; "uf"])
            Reference.partial)
       ++ EClose :: ECommit :: earlier)%list
    /\ forall k,
         In k (unmapped_keys Reference.unidecode
                 (existing_columns_of Reference.unidecode [Reference.area; "uf"])
                 Reference.partial)
         <-> (exists v, In (k, v) Reference.partial)
             /\ ~ In (Reference.unidecode k)
                     (map Reference.unidecode [Reference.area; "uf"]).
Proof.
  eapply (rename_db_columns_reports_unmapped
            Reference.run_stmt Reference.unidecode
            (Reference.host_with (Mapping Reference.partial))
            "data/db/db.db" "sinan" "english"
            (Reference.world0 [Reference.area; "uf"])); vm_compute; reflexivity.
Defined.

(** The run behind the last two statements. *)
Example partial_run_events :
  events (snd (Reference.run (Mapping Reference.partial) [Reference.area; "uf"]))
  = [ELog WARNING " - idade";
     ELog WARNING
       "The following columns were not found in the JSON mapping or database and were not renamed:";
     EClose; ECommit;
     EExecute (ALTER_RENAME "sinan" "area" "area_km2");
     ELog INFO
       (String.append "Removed accents from column '"
          (String.append Reference.area "' to 'area'"));
     EExecute (ALTER_RENAME "sinan" Reference.area "area");
     EExecute (DESCRIBE "sinan");
     EBegin; EConnect "data/db/db.db";
     ELog INFO "Column mapping for 'english' loaded successfully.";
     EOpen "json/columns_translated_english.json"].
Proof. reflexivity. Qed.

End RenameMore.

(** ** [get_years]: the year a file name writes *)

Module GetYearsNumbers.
Import GetInfo GetYearsList GetYearsMore.

Lemma decimal_digit_code (k : nat) :
  (k < 10)%nat -> ascii_of_nat (48 + k) = decimal_digit k.
Proof.
  intros Hk; do 10 (destruct k as [|k]; [reflexivity|]); lia.
Qed.

(** The digit characters are the ten characters 0 to 9, and
    [digit_value] reads each as the number it writes. *)
Lemma decimal_digit_value (a : nat) :
  (a < 10)%nat ->
  is_digit (decimal_digit a) = true /\ digit_value (decimal_digit a) = Z.of_nat a.
Proof.
  intros Ha; do 10 (destruct a as [|a]; [split; reflexivity|]); lia.
Qed.

Lemma is_digit_decimal (d : ascii) :
  is_digit d = true -> exists a, (a < 10)%nat /\ d = decimal_digit a.
Proof.
  unfold is_digit; intros H; apply andb_prop in H; destruct H as [L U].
  apply Nat.leb_le in L; apply Nat.leb_le in U.
  exists (nat_of_ascii d - 48)%nat; split; [lia|].
  rewrite <- decimal_digit_code by lia.
  replace (48 + (nat_of_ascii d - 48))%nat with (nat_of_ascii d) by lia.
  symmetry; apply ascii_nat_embedding.
Qed.

Lemma no_fragment_in_empty (e1 e2 : ascii) : ~ contains_BR "" e1 e2.
Proof. intros (pre & post & E & _); destruct pre; discriminate E. Qed.

(** What [re.search] finds is the first fragment of the file name. *)
Lemma re_search_BR_first (file : string) (d1 d2 : ascii) :
  re_search_BR file = Some (d1, d2) ->
  exists pre post,
    file = pre ++ String "B" (String "R" (String d1 (String d2 post)))
    /\ is_digit d1 = true /\ is_digit d2 = true
    /\ forall e1 e2, ~ contains_BR pre e1 e2.
Proof.
  induction file as [|a s IH]; [discriminate|].
  cbn [re_search_BR].
  destruct (match_BR_here (String a s)) as [[e1 e2]|] eqn:M.
  - intros [= <- <-].
    destruct (match_BR_here_Some _ _ _ M) as (post & -> & H1 & H2).
    exists "", post; repeat split; auto using no_fragment_in_empty.
  - intros H; destruct (IH H) as (pre & post & -> & H1 & H2 & N).
    exists (String a pre), post; repeat split; auto.
    intros e1 e2 (p & q & E & D1 & D2).
    destruct p as [|c p]; cbn in E.
    + injection E as -> ->.
      cbn [append] in M.
      rewrite (match_BR_here_fragment e1 e2 _ D1 D2) in M; discriminate M.
    + injection E as _ ->; apply (N e1 e2); exists p, q; auto.
Qed.

(** Conversely, a fragment with none before it is the one found. *)
Lemma re_search_BR_finds_first (pre post : string) (d1 d2 : ascii) :
  is_digit d1 = true -> is_digit d2 = true ->
  (forall e1 e2, ~ contains_BR pre e1 e2) ->
  re_search_BR (pre ++ String "B" (String "R" (String d1 (String d2 post))))
  = Some (d1, d2).
Proof.
  intros H1 H2; induction pre as [|a pre IH]; intros N;
    cbn [append re_search_BR].
  - now rewrite (match_BR_here_fragment _ _ post H1 H2).
  - destruct (match_BR_here _) as [[e1 e2]|] eqn:M.
    + destruct (N e1 e2); eapply match_before_fragment; exact M.
    + apply IH; intros e1 e2 C; apply (N e1 e2), contains_BR_cons, C.
Qed.

(** C9.  A file name that contains "BR" followed by two digits
    contributes a year: with [a] and [b] the digits its first such
    fragment writes, the year is the number 10a + b plus 2000 (so 2000 to
    2099); this holds for every fragment with none before it, whatever
    follows.  A file name without the fragment contributes no year.  The
    years listed are those the files of the index contribute, in
    ascending order. *)
Theorem years_from_file_names
    (get_files : list string -> list string) (disease : string) :
  (forall file d1 d2, contains_BR file d1 d2 ->
     exists pre post a b,
       (a < 10)%nat /\ (b < 10)%nat
       /\ file = pre ++ String "B" (String "R"
                          (String (decimal_digit a) (String (decimal_digit b) post)))
       /\ (forall e1 e2, ~ contains_BR pre e1 e2)
       /\ year_of_file file = Some (10 * Z.of_nat a + Z.of_nat b + 2000)%Z)
  /\ (forall pre post a b,
        (a < 10)%nat -> (b < 10)%nat ->
        (forall e1 e2, ~ contains_BR pre e1 e2) ->
        year_of_file
          (pre ++ String "B" (String "R"
                     (String (decimal_digit a) (String (decimal_digit b) post))))
        = Some (10 * Z.of_nat a + Z.of_nat b + 2000)%Z)
  /\ (forall file y, year_of_file file = Some y -> (2000 <= y <= 2099)%Z)
  /\ (forall file, (forall d1 d2, ~ contains_BR file d1 d2) ->
        year_of_file file = None)
  /\ (forall y, In y (years get_files disease) <->
        exists file, In file (get_files [disease]) /\ year_of_file file = Some y)
  /\ Sorted Z.le (years get_files disease)
  /\ Permutation (years get_files disease) (years_of_files (get_files [disease]))
  /\ get_years get_files ""
     = "The available data for  is from the years: "
         ++ join ", " (map str_int (years get_files "")) ++ ".".
Proof.
  assert (at_first : forall pre post a b,
            (a < 10)%nat -> (b < 10)%nat ->
            (forall e1 e2, ~ contains_BR pre e1 e2) ->
            year_of_file
              (pre ++ String "B" (String "R"
                 (String (decimal_digit a) (String (decimal_digit b) post))))
            = Some (10 * Z.of_nat a + Z.of_nat b + 2000)%Z).
  { intros pre post a b Ha Hb N.
    destruct (decimal_digit_value a Ha) as [Da Va].
    destruct (decimal_digit_value b Hb) as [Db Vb].
    unfold year_of_file.
    rewrite (re_search_BR_finds_first pre post _ _ Da Db N).
    unfold int_group; cbn [fst snd]; now rewrite Va, Vb. }
  split; [|split; [exact at_first|split; [|split; [|split; [|split; [|split]]]]]].
  - intros file d1 d2 H.
    destruct (re_search_BR_complete _ _ _ H) as ([e1 e2] & E).
    destruct (re_search_BR_first _ _ _ E) as (pre & post & -> & D1 & D2 & N).
    destruct (is_digit_decimal _ D1) as (a & Ha & ->).
    destruct (is_digit_decimal _ D2) as (b & Hb & ->).
    exists pre, post, a, b; repeat split; auto.
  - intros file y H.
    destruct (year_of_file_Some _ _ H) as (d1 & d2 & (_ & _ & _ & H1 & H2) & ->).
    apply digit_value_range in H1, H2; unfold int_group; cbn [fst snd]; lia.
  - intros file H; destruct (year_of_file file) as [y|] eqn:E; [|reflexivity].
    destruct (year_of_file_Some _ _ E) as (d1 & d2 & Hc & _).
    now destruct (H d1 d2).
  - intros y; unfold years; rewrite <- years_of_files_In.
    split; apply Permutation_in; [symmetry|]; apply sorted_perm.
  - apply sorted_Sorted.
  - symmetry; apply sorted_perm.
  - reflexivity.
Qed.

Lemma years_from_file_names_witness :
  year_of_file "CHIKBR17.parquet" = Some 2017%Z
  /\ Sorted Z.le
       (years (fun _ => ["CHIKBR17.parquet"; "readme.txt"; "CHIKBR15.parquet"]) "").
Proof.
  split.
  - apply (proj1 (proj2 (years_from_file_names
                           (fun _ => ["CHIKBR17.parquet"; "readme.txt";
                                      "CHIKBR15.parquet"]) ""))
             "CHIK" ".parquet" 1%nat 7%nat); [lia|lia|].
    intros e1 e2 (pre & post & E & _).
    destruct pre as [|c0 [|c1 [|c2 [|c3 [|c4 pre]]]]]; cbn in E; discriminate E.
  - apply (years_from_file_names
             (fun _ => ["CHIKBR17.parquet"; "readme.txt"; "CHIKBR15.parquet"]) "").
Defined.

(** The listing for that index. *)
Example years_of_three_files :
  years (fun _ => ["CHIKBR17.parquet"; "readme.txt"; "CHIKBR15.parquet"]) ""
  = [2015%Z; 2017%Z].
Proof. reflexivity. Qed.

End GetYearsNumbers.
